(** * SATOSA request routing ([satosa/routing.py])

    A shallow embedding of [ModuleRouter]: registry bootstrap, the inbound
    search over frontend, micro-service and backend endpoint tables, and the
    continuation entry that links [backend_routing] to [frontend_routing].

    Python values are modelled as follows.
    - [str] is [string]; [None]-able attributes are [option].
    - The three registries are insertion-ordered dictionaries, kept as
      association lists because [modules.values()] is iterated in order.
    - [context.state] is a dictionary read and written by key only, kept as
      a [gmap].
    - A call either returns or raises; mutation of the request context is
      explicit state passing.
    - Log lines are not modelled, with one exception: the argument of the
      debug call that follows the split of the path in [endpoint_routing]
      formats the rendered list a second time and can raise. *)

From Stdlib Require Import Ascii String.
From stdpp Require Import base option list strings gmap.

Local Open Scope string_scope.
Local Open Scope list_scope.

(** ** Python string and list primitives used by the router *)

Module PyStr.

(** [sub in s] for strings: [sub] occurs somewhere in [s]. *)
Fixpoint contains (sub s : string) : bool :=
  String.prefix sub s ||
  match s with
  | EmptyString => false
  | String _ s' => contains sub s'
  end.

(** [s.split(sep)] for a one-character separator. The result is never
    empty: a string without [sep] is returned as its only element. *)
Fixpoint split (sep : ascii) (s : string) : list string :=
  match s with
  | EmptyString => [EmptyString]
  | String c s' =>
      if Ascii.eqb c sep then EmptyString :: split sep s'
      else match split sep s' with
           | [] => [String c EmptyString]
           | w :: ws => String c w :: ws
           end
  end.

(** Whether a replacement budget ([count], [None] for unlimited) still
    allows one more replacement, and the budget after it. *)
Definition may_replace (count : option nat) : bool :=
  match count with
  | Some O => false
  | _ => true
  end.

Definition spend (count : option nat) : option nat :=
  match count with
  | Some n => Some (pred n)
  | None => None
  end.

(** Scanning loop of [s.replace(old, new, count)] for a non-empty [old]:
    occurrences are found left to right and do not overlap. [skip] counts
    the characters of the current occurrence still to be dropped. *)
Fixpoint replace_scan (old new : string) (skip : nat) (count : option nat)
    (s : string) : string :=
  match s with
  | EmptyString => EmptyString
  | String c s' =>
      match skip with
      | S k => replace_scan old new k count s'
      | O =>
          if may_replace count && String.prefix old s
          then new +:+ replace_scan old new (pred (String.length old)) (spend count) s'
          else String c (replace_scan old new O count s')
      end
  end.

(** [s.replace("", new, count)]: [new] is inserted before every character
    and at the end, while the budget lasts. *)
Fixpoint replace_empty (new : string) (count : option nat) (s : string) : string :=
  if may_replace count then
    match s with
    | EmptyString => new
    | String c s' => new +:+ String c (replace_empty new (spend count) s')
    end
  else s.

(** [s.replace(old, new)] and [s.replace(old, new, count)]. *)
Definition replace (old new : string) (count : option nat) (s : string) : string :=
  match old with
  | EmptyString => replace_empty new count s
  | _ => replace_scan old new O count s
  end.

End PyStr.

Module PyList.

(** [l[-1]] on a list of strings; the default is only returned for the
    empty list, where Python raises. *)
Definition last_or (d : string) (l : list string) : string := List.last l d.

(** [l.remove(x)]: drops the first element equal to [x]; [None] stands for
    the [ValueError] Python raises when there is none. *)
Fixpoint remove (x : string) (l : list string) : option (list string) :=
  match l with
  | [] => None
  | y :: l' =>
      if decide (y = x) then Some l'
      else match remove x l' with
           | Some r => Some (y :: r)
           | None => None
           end
  end.

End PyList.

(** ** Exceptions and results *)

Inductive exn : Type :=
| ValueError (msg : string)
| KeyError (key : option string)
| IndexError (msg : string)
| TypeError (msg : string)
| SATOSABadContextError (msg : string)
| SATOSANoBoundEndpointError (msg : string)
| UnknownEndpoint (requested : option string)
| AttributeError (msg : string).

Inductive result (A : Type) : Type :=
| Return (a : A)
| Raise (e : exn).

Arguments Return {A} a.
Arguments Raise {A} e.

#[global] Instance result_ret : MRet result := λ A a, Return a.

#[global] Instance result_bind : MBind result := λ A B f m,
  match m with
  | Return a => f a
  | Raise e => Raise e
  end.

(** What [str.format] can raise on a template with the one keyword argument
    [path_split]: a named field that is not [path_split], a positional
    field (there are no positional arguments), a malformed template, and the
    errors of attribute access or of a format specification on the list. *)
Inductive format_error : Type :=
| FormatKeyError (key : string)
| FormatIndexError (field : string)
| FormatValueError (msg : string)
| FormatAttributeError (msg : string)
| FormatTypeError (msg : string).

Definition format_exn (e : format_error) : exn :=
  match e with
  | FormatKeyError key => KeyError (Some key)
  | FormatIndexError field =>
      IndexError ("Replacement index "
                  +:+ match field with EmptyString => "0" | _ => field end
                  +:+ " out of range for positional args tuple")
  | FormatValueError msg => ValueError msg
  | FormatAttributeError msg => AttributeError msg
  | FormatTypeError msg => TypeError msg
  end.

(** ** Insertion-ordered dictionaries with string keys *)

Definition dict (V : Type) : Type := list (string * V).

(** [d[k] = v]: an existing key keeps its position and takes the new value,
    a new key goes to the end. *)
Fixpoint dict_set {V : Type} (k : string) (v : V) (d : dict V) : dict V :=
  match d with
  | [] => [(k, v)]
  | (k', v') :: d' =>
      if decide (k' = k) then (k, v) :: d' else (k', v') :: dict_set k v d'
  end.

Fixpoint dict_get {V : Type} (k : string) (d : dict V) : option V :=
  match d with
  | [] => None
  | (k', v) :: d' => if decide (k' = k) then Some v else dict_get k d'
  end.

(** [k in d]. *)
Definition dict_mem {V : Type} (k : string) (d : dict V) : bool :=
  match dict_get k d with
  | Some _ => true
  | None => false
  end.

(** [d[k]] where [k] may be [None], which is never a key here. *)
Definition dict_getitem {V : Type} (k : option string) (d : dict V) : result V :=
  match k with
  | Some k' =>
      match dict_get k' d with
      | Some v => Return v
      | None => Raise (KeyError k)
      end
  | None => Raise (KeyError k)
  end.

(** [{key(x): val(x) for x in xs}]. *)
Definition dict_comprehension {A V : Type} (key : A → string) (val : A → V)
    (xs : list A) : dict V :=
  fold_left (λ d x, dict_set (key x) (val x) d) xs [].

(** ** Request context *)

(** [satosa.context.Context], restricted to the attributes the router
    touches. State values are [None] or a string, which is all the router
    stores there. *)
Record Context : Type := {
  path : option string;
  target_backend : option string;
  target_frontend : option string;
  target_micro_service : option string;
  state : gmap string (option string)
}.

Definition set_target_backend (v : option string) (c : Context) : Context :=
  {| path := path c; target_backend := v; target_frontend := target_frontend c;
     target_micro_service := target_micro_service c; state := state c |}.

Definition set_target_frontend (v : option string) (c : Context) : Context :=
  {| path := path c; target_backend := target_backend c; target_frontend := v;
     target_micro_service := target_micro_service c; state := state c |}.

Definition set_target_micro_service (v : option string) (c : Context) : Context :=
  {| path := path c; target_backend := target_backend c;
     target_frontend := target_frontend c; target_micro_service := v;
     state := state c |}.

Definition set_state (v : gmap string (option string)) (c : Context) : Context :=
  {| path := path c; target_backend := target_backend c;
     target_frontend := target_frontend c;
     target_micro_service := target_micro_service c; state := v |}.

Definition STATE_KEY : string := "ROUTER".

(** Modules expose a [name] attribute. *)
Class Named (I : Type) : Type := name : I → string.

(** Python truth value of a handler descriptor ([if matched:]). *)
Class Truthy (H : Type) : Type := truthy : H → bool.

(** ** The router *)

Section Router.

(** Handler descriptors are opaque values supplied by the modules. *)
Context {Handler : Type} `{!Truthy Handler}.

(** [re_search regex s] holds when [re.search(regex, s)] is not [None]. *)
Variable re_search : string → string → bool.

(** [format_path_splits path_split] is the exception, if any, that the
    argument of the debug call after the split raises:
    [f"Found path_splits: {path_split}".format(path_split=path_split)].
    The f-string renders the list, and [format] then reads the rendering,
    request path included, as a template. *)
Variable format_path_splits : list string → option format_error.

(** What [register_endpoints] returns: (pattern, handler) pairs in
    registration order. *)
Definition EndpointTable : Type := list (string * Handler).

Record FrontendModule : Type := {
  frontend_name : string;
  frontend_register_endpoints : list string → EndpointTable
}.

Record BackendModule : Type := {
  backend_name : string;
  backend_register_endpoints : EndpointTable
}.

Record MicroService : Type := {
  micro_service_name : string;
  micro_service_register_endpoints : EndpointTable
}.

#[global] Instance frontend_named : Named FrontendModule := frontend_name.
#[global] Instance backend_named : Named BackendModule := backend_name.
#[global] Instance micro_service_named : Named MicroService := micro_service_name.

(** A registry value [{"instance": ..., "endpoints": ...}]. *)
Record RegistryEntry (I : Type) : Type := {
  instance : I;
  endpoints : EndpointTable
}.

Arguments instance {I} _.
Arguments endpoints {I} _.

Record ModuleRouter : Type := {
  base_url : string;
  frontends : dict (RegistryEntry FrontendModule);
  backends : dict (RegistryEntry BackendModule);
  micro_services : dict (RegistryEntry MicroService)
}.

(** [ModuleRouter.__init__]. An absent [base_url] or [micro_services] is
    [None]. *)
Definition __init__ (url : option string) (fes : list FrontendModule)
    (bes : list BackendModule) (mss : option (list MicroService))
    : result ModuleRouter :=
  match url with
  | None | Some EmptyString => Raise (ValueError "Base URL is mandatory")
  | Some u =>
      match fes, bes with
      | [], _ | _, [] =>
          Raise (ValueError "Need at least one frontend and one backend")
      | _, _ =>
          let backend_names := backend_name <$> bes in
          Return {|
            base_url := u;
            frontends :=
              dict_comprehension name
                (λ i, {| instance := i;
                         endpoints := frontend_register_endpoints i backend_names |})
                fes;
            backends :=
              dict_comprehension name
                (λ i, {| instance := i;
                         endpoints := backend_register_endpoints i |})
                bes;
            micro_services :=
              match mss with
              | None | Some [] => []
              | Some l =>
                  dict_comprehension name
                    (λ i, {| instance := i;
                             endpoints := micro_service_register_endpoints i |})
                    l
              end
          |}
      end
  end.

(** [backend_routing]: the registry lookup comes first, the continuation
    entry is written after it. *)
Definition backend_routing (self : ModuleRouter) (context : Context)
    : result BackendModule * Context :=
  match dict_getitem (target_backend context) (backends self) with
  | Raise e => (Raise e, context)
  | Return entry =>
      (Return (instance entry),
       set_state (<[STATE_KEY := target_frontend context]> (state context)) context)
  end.

(** [frontend_routing]: [context.target_frontend] is assigned before the
    registry lookup. *)
Definition frontend_routing (self : ModuleRouter) (context : Context)
    : result FrontendModule * Context :=
  match state context !! STATE_KEY with
  | None => (Raise (KeyError (Some STATE_KEY)), context)
  | Some target =>
      let context := set_target_frontend target context in
      match dict_getitem (target_frontend context) (frontends self) with
      | Raise e => (Raise e, context)
      | Return entry => (Return (instance entry), context)
      end
  end.

(** ["/" in self.base_url.replace("https://", "").replace("http://", "")] *)
Definition has_context_path (self : ModuleRouter) : bool :=
  PyStr.contains "/"
    (PyStr.replace "http://" "" None
       (PyStr.replace "https://" "" None (base_url self))).

(** [self.base_url.split("/")[-1]] *)
Definition base_url_context (self : ModuleRouter) : string :=
  PyList.last_or "" (PyStr.split "/" (base_url self)).

(** [context_path.replace(base_url_context, "").replace("/", "", 1)] *)
Definition remove_context (self : ModuleRouter) (context_path : string) : string :=
  PyStr.replace "/" "" (Some 1)
    (PyStr.replace (base_url_context self) "" None context_path).

(** The test made on one pattern: the raw path first, and the path with
    the context removed when that fails and the base URL has a context. *)
Definition pattern_matches (self : ModuleRouter) (regex context_path : string) : bool :=
  let matched := re_search regex context_path in
  if negb matched && has_context_path self
  then re_search regex (remove_context self context_path)
  else matched.

(** The loop of [_find_registered_endpoint_for_module]. [re.search] on an
    absent path is a [TypeError]. *)
Fixpoint search_endpoints (self : ModuleRouter) (table : EndpointTable)
    (context : Context) : result (option Handler) :=
  match table with
  | [] => Return None
  | (regex, spec) :: rest =>
      match path context with
      | None => Raise (TypeError "expected string or bytes-like object")
      | Some context_path =>
          if pattern_matches self regex context_path
          then Return (Some spec)
          else search_endpoints self rest context
      end
  end.

Definition _find_registered_endpoint_for_module {I : Type} (self : ModuleRouter)
    (module : RegistryEntry I) (context : Context) : result (option Handler) :=
  search_endpoints self (endpoints module) context.

Definition _find_registered_backend_endpoint (self : ModuleRouter)
    (context : Context) : result (option Handler) :=
  module ← dict_getitem (target_backend context) (backends self);
  _find_registered_endpoint_for_module self module context.

Fixpoint _find_registered_endpoint {I : Type} `{!Named I} (self : ModuleRouter)
    (context : Context) (modules : dict (RegistryEntry I))
    : result (string * Handler) :=
  match modules with
  | [] => Raise (UnknownEndpoint (path context))
  | (_, module) :: rest =>
      matched ← _find_registered_endpoint_for_module self module context;
      match matched with
      | Some spec =>
          if truthy spec then Return (name (instance module), spec)
          else _find_registered_endpoint self context rest
      | None => _find_registered_endpoint self context rest
      end
  end.

Definition not_bound (p : string) : exn :=
  SATOSANoBoundEndpointError ("'" +:+ p +:+ "' not bound to any function").

(** [path_split] after the debug call on the split and the optional removal
    of the context segment. *)
Definition split_path (self : ModuleRouter) (p : string) : result (list string) :=
  let path_split := PyStr.split "/" p in
  match format_path_splits path_split with
  | Some e => Raise (format_exn e)
  | None =>
      if has_context_path self then
        match PyList.remove (base_url_context self) path_split with
        | Some l => Return l
        | None => Raise (ValueError "list.remove(x): x not in list")
        end
      else Return path_split
  end.

Definition endpoint_routing (self : ModuleRouter) (context : Context)
    : result Handler * Context :=
  match path context with
  | None => (Raise (SATOSABadContextError "Context did not contain any path"), context)
  | Some p =>
      match split_path self p with
      | Raise e => (Raise e, context)
      | Return [] => (Raise (IndexError "list index out of range"), context)
      | Return (backend :: _) =>
          let context :=
            if dict_mem backend (backends self)
            then set_target_backend (Some backend) context
            else context in
          match _find_registered_endpoint self context (frontends self) with
          | Return (name, frontend_endpoint) =>
              (Return frontend_endpoint, set_target_frontend (Some name) context)
          | Raise (UnknownEndpoint _) =>
              match _find_registered_endpoint self context (micro_services self) with
              | Return (name, micro_service_endpoint) =>
                  (Return micro_service_endpoint,
                   set_target_micro_service (Some name) context)
              | Raise (UnknownEndpoint _) =>
                  if dict_mem backend (backends self) then
                    match _find_registered_backend_endpoint self context with
                    | Return backend_endpoint =>
                        match backend_endpoint with
                        | Some spec =>
                            if truthy spec then (Return spec, context)
                            else (Raise (not_bound p), context)
                        | None => (Raise (not_bound p), context)
                        end
                    | Raise e => (Raise e, context)
                    end
                  else (Raise (not_bound p), context)
              | Raise e => (Raise e, context)
              end
          | Raise e => (Raise e, context)
          end
      end
  end.

End Router.

Arguments EndpointTable : clear implicits.
Arguments FrontendModule : clear implicits.
Arguments BackendModule : clear implicits.
Arguments MicroService : clear implicits.
Arguments RegistryEntry : clear implicits.
Arguments ModuleRouter : clear implicits.
Arguments instance {Handler I} _.
Arguments endpoints {Handler I} _.

(** ** A concrete matcher for anchored literal patterns

    [re.search] restricted to the patterns made of an optional leading [^],
    characters without special meaning, and an optional trailing [$]. Any
    other pattern is outside the fragment and is rejected. *)

Module PyRe.

Definition special : list ascii :=
  ["."; "^"; "$"; "*"; "+"; "?"; "{"; "}"; "["; "]"; "\"; "|"; "("; ")"]%char.

Fixpoint plain (s : string) : bool :=
  match s with
  | EmptyString => true
  | String c s' => negb (existsb (Ascii.eqb c) special) && plain s'
  end.

(** The text left after [lit], when the text starts with it. *)
Fixpoint after_literal (lit text : string) : option string :=
  match lit, text with
  | EmptyString, _ => Some text
  | String a lit', String b text' =>
      if Ascii.eqb a b then after_literal lit' text' else None
  | String _ _, EmptyString => None
  end.

(** [$] matches at the end of the text and before a final newline. *)
Definition at_end (rest : string) : bool :=
  match rest with
  | EmptyString => true
  | String c EmptyString => Ascii.eqb c "010"
  | _ => false
  end.

Definition match_here (lit : string) (to_end : bool) (text : string) : bool :=
  match after_literal lit text with
  | Some rest => if to_end then at_end rest else true
  | None => false
  end.

Fixpoint match_anywhere (lit : string) (to_end : bool) (text : string) : bool :=
  match_here lit to_end text ||
  match text with
  | EmptyString => false
  | String _ text' => match_anywhere lit to_end text'
  end.

(** Splits a trailing [$] off a pattern body. *)
Fixpoint trailing_dollar (body : string) : bool * string :=
  match body with
  | EmptyString => (false, EmptyString)
  | String c EmptyString =>
      if Ascii.eqb c "$" then (true, EmptyString) else (false, body)
  | String c body' =>
      let '(d, lit) := trailing_dollar body' in (d, String c lit)
  end.

Definition search (regex text : string) : bool :=
  let '(from_start, body) :=
    match regex with
    | String "^" r => (true, r)
    | _ => (false, regex)
    end in
  let '(to_end, lit) := trailing_dollar body in
  plain lit &&
  (if from_start then match_here lit to_end text
   else match_anywhere lit to_end text).

End PyRe.

(** ** A concrete reading of the debug call on the split

    [str.format] on the rendering of the split, for pieces made of printable
    characters other than quotes and backslashes (their [repr] is the piece
    between single quotes) and for replacement fields without [[], [!] and
    [:]. Doubled braces are escapes. A field is looked up by the part of its
    name before the first dot: the empty name and a numeric one are
    positional (numeric names are taken to be short enough to be read as an
    index), [path_split] alone is the keyword argument, any other name is a
    missing key. Fields outside this fragment are refused. *)

Module PyFormat.

Definition repr (s : string) : string := "'" +:+ s +:+ "'".

Fixpoint join (sep : string) (l : list string) : string :=
  match l with
  | [] => EmptyString
  | [x] => x
  | x :: l' => x +:+ sep +:+ join sep l'
  end.

(** The value of the f-string. *)
Definition render (path_split : list string) : string :=
  "Found path_splits: [" +:+ join ", " (repr <$> path_split) +:+ "]".

Fixpoint digits (s : string) : bool :=
  match s with
  | EmptyString => true
  | String c s' => (Nat.leb 48 (nat_of_ascii c) && Nat.leb (nat_of_ascii c) 57) && digits s'
  end.

(** The part of a field name before the first dot, and whether anything
    follows it. *)
Fixpoint first_part (name : string) : string * bool :=
  match name with
  | EmptyString => (EmptyString, false)
  | String c name' =>
      if Ascii.eqb c "." then (EmptyString, true)
      else let '(first, more) := first_part name' in (String c first, more)
  end.

(** What the lookup of a complete field raises. *)
Definition lookup (name : string) : option format_error :=
  let '(first, more) := first_part name in
  if digits first then Some (FormatIndexError first)
  else if String.eqb first "path_split" then
    if more then Some (FormatValueError "field outside the fragment") else None
  else Some (FormatKeyError first).

Inductive mode : Type :=
| Text
| Opened
| Closed
| Field (name : string).

(** One character read inside a field whose name so far is [name]; [None]
    leaves the field. *)
Definition field_step (name : string) (c : ascii) : mode + option format_error :=
  if Ascii.eqb c "}" then inr (lookup name)
  else if Ascii.eqb c "{" then
    inr (Some (FormatValueError "unexpected '{' in field name"))
  else if Ascii.eqb c "[" || Ascii.eqb c "!" || Ascii.eqb c ":" then
    inr (Some (FormatValueError "field outside the fragment"))
  else inl (Field (name +:+ String c EmptyString)).

Fixpoint scan (m : mode) (s : string) : option format_error :=
  match s with
  | EmptyString =>
      match m with
      | Text => None
      | Opened => Some (FormatValueError "Single '{' encountered in format string")
      | Closed => Some (FormatValueError "Single '}' encountered in format string")
      | Field _ => Some (FormatValueError "expected '}' before end of string")
      end
  | String c s' =>
      match m with
      | Text =>
          if Ascii.eqb c "{" then scan Opened s'
          else if Ascii.eqb c "}" then scan Closed s'
          else scan Text s'
      | Opened =>
          if Ascii.eqb c "{" then scan Text s'
          else match field_step EmptyString c with
               | inl m' => scan m' s'
               | inr (Some e) => Some e
               | inr None => scan Text s'
               end
      | Closed =>
          if Ascii.eqb c "}" then scan Text s'
          else Some (FormatValueError "Single '}' encountered in format string")
      | Field name =>
          match field_step name c with
          | inl m' => scan m' s'
          | inr (Some e) => Some e
          | inr None => scan Text s'
          end
      end
  end.

Definition path_splits_error (path_split : list string) : option format_error :=
  scan Text (render path_split).

End PyFormat.

(** ** The table search and the frontend priority as the specification words them *)

Section Specification.

Context {Handler : Type} `{!Truthy Handler}.
Variable re_search : string → string → bool.
Variable format_path_splits : list string → option format_error.

(** No pattern of the table matches [p], raw or with the context removed. *)
Definition no_pattern_matches (self : ModuleRouter Handler)
    (table : list (string * Handler)) (p : string) : Prop :=
  Forall (λ e, pattern_matches re_search self e.1 p = false) table.

(** No table of the registry has a pattern that matches [p]. *)
Definition no_module_matches {I : Type} (self : ModuleRouter Handler)
    (modules : dict (RegistryEntry Handler I)) (p : string) : Prop :=
  Forall (λ m, no_pattern_matches self (endpoints m.2) p) modules.

(** Handler of the first pattern of the table that matches [s]. *)
Fixpoint first_match (table : list (string * Handler)) (s : string) : option Handler :=
  match table with
  | [] => None
  | (regex, spec) :: rest =>
      if re_search regex s then Some spec else first_match rest s
  end.

(** [s] without [pre] at its front; [None] when [s] does not start with it. *)
Fixpoint without_prefix (pre s : string) : option string :=
  match pre, s with
  | EmptyString, _ => Some s
  | String a pre', String b s' =>
      if Ascii.eqb a b then without_prefix pre' s' else None
  | String _ _, EmptyString => None
  end.

(** The context segment and the slash after it, taken off the front of the
    request path. *)
Definition strip_context_prefix (segment p : string) : string :=
  match without_prefix (segment +:+ "/") p with
  | Some rest => rest
  | None => p
  end.

(** Follows the specification's wording: a first pass over the whole table
    on the raw path, and a second pass on the path without its context
    prefix only when no pattern matched the raw path. *)
Definition search_raw_then_stripped (self : ModuleRouter Handler) (table : list (string * Handler))
    (p : string) : option Handler :=
  match first_match table p with
  | Some spec => Some spec
  | None =>
      if has_context_path self
      then first_match table (strip_context_prefix (base_url_context self) p)
      else None
  end.

(** Follows the specification's wording: the table search of the code gives
    what the two passes over the whole table give. *)
Definition searches_raw_table_first {I : Type} (self : ModuleRouter Handler)
    (module : RegistryEntry Handler I) (context : Context) : Prop :=
  ∀ p, path context = Some p →
    _find_registered_endpoint_for_module re_search self module context
    = Return (search_raw_then_stripped self (endpoints module) p).

(** Follows the specification's wording: whichever frontend registers a
    pattern that matches the path is the one the request is routed to. *)
Definition routes_to_every_matching_frontend (self : ModuleRouter Handler)
    (context : Context) : Prop :=
  ∀ k F regex spec p,
    (k, F) ∈ frontends self →
    (regex, spec) ∈ endpoints F →
    path context = Some p →
    pattern_matches re_search self regex p = true →
    ∃ h context',
      endpoint_routing re_search format_path_splits self context = (Return h, context')
      ∧ target_frontend context' = Some (name (instance F))
      ∧ h ∈ (endpoints F).*2.

End Specification.

(** ** Vocabulary for the further properties *)

(** [context.path = v], as the caller of the router sets it. *)
Definition set_path (v : option string) (c : Context) : Context :=
  {| path := v; target_backend := target_backend c;
     target_frontend := target_frontend c;
     target_micro_service := target_micro_service c; state := state c |}.

Section Vocabulary.

Context {Handler : Type}.
Variable re_search : string → string → bool.

(** No pattern of any table of the registry matches [s] as it stands. *)
Definition no_raw_match {I : Type} (modules : dict (RegistryEntry Handler I))
    (s : string) : Prop :=
  Forall (λ m, Forall (λ e, re_search e.1 s = false) (endpoints m.2)) modules.

(** The request path [p] behind the context segment of the base URL. *)
Definition prefixed_path (self : ModuleRouter Handler) (p : string) : string :=
  base_url_context self +:+ String "/" p.

End Vocabulary.

(** Neither brace occurs in [s]. *)
Definition brace_free (s : string) : bool :=
  negb (PyStr.contains "{" s) && negb (PyStr.contains "}" s).

(** ** The SAML2 backend ([satosa/backends/saml2.py])

    The parts of [SamlBackend] that do not go through the SAML client: the
    endpoint table it registers with the router and the two conversions
    between name-id formats and hash types. *)

Module Saml2.

(** The bound methods a handler descriptor can carry. *)
Inductive Callback : Type :=
| authn_response
| _metadata
| disco_response.

(** A handler descriptor: (bound method, binding). *)
Definition Handler : Type := Callback * string.

(** A non-empty tuple is true. *)
#[global] Instance handler_truthy : Truthy Handler := λ _, true.

(** What [register_endpoints] reads from the backend: the value of
    [self.sp.config.getattr("endpoints", "sp")], a dictionary from service
    names to (endpoint URL, binding) pairs; the [publish_metadata] entry of
    [self.config], [None] when the key is absent; and [self.discosrv]. *)
Record SamlBackend : Type := {
  sp_endpoints : dict (list (string * string));
  publish_metadata : option string;
  discosrv : option string
}.

(** [s[1:]] *)
Definition drop_first (s : string) : string :=
  match s with
  | EmptyString => EmptyString
  | String _ s' => s'
  end.

(** [if self.discosrv:] *)
Definition discosrv_set (self : SamlBackend) : bool :=
  match discosrv self with
  | None | Some EmptyString => false
  | Some _ => true
  end.

Section RegisterEndpoints.

(** [url_path u] is [urlparse(u).path], or the [ValueError] that [urlparse]
    raises on a malformed URL. *)
Variable url_path : string → result string.

(** The entries appended for the assertion consumer services, two for each;
    the first URL that does not parse stops the loop. *)
Fixpoint acs_entries (acs : list (string * string)) : result (list (string * Handler)) :=
  match acs with
  | [] => Return []
  | (endp, binding) :: rest =>
      parsed ← url_path endp;
      url_map ← acs_entries rest;
      Return (("^" +:+ drop_first parsed +:+ "?(.*)$", (authn_response, binding))
              :: ("^" +:+ drop_first parsed +:+ "$", (authn_response, binding))
              :: url_map)
  end.

Definition metadata_entries (self : SamlBackend) : result (list (string * Handler)) :=
  match publish_metadata self with
  | Some url =>
      parsed ← url_path url;
      Return [("^" +:+ drop_first parsed +:+ "$", (_metadata, EmptyString))]
  | None => Return []
  end.

Fixpoint disco_entries (disco : list (string * string)) : result (list (string * Handler)) :=
  match disco with
  | [] => Return []
  | (endp, binding) :: rest =>
      parsed ← url_path endp;
      url_map ← disco_entries rest;
      Return (("^" +:+ drop_first parsed +:+ "$", (disco_response, binding)) :: url_map)
  end.

Definition register_endpoints (self : SamlBackend) : result (list (string * Handler)) :=
  acs ← dict_getitem (Some "assertion_consumer_service") (sp_endpoints self);
  from_acs ← acs_entries acs;
  from_metadata ← metadata_entries self;
  if discosrv_set self then
    disco ← dict_getitem (Some "discovery_response") (sp_endpoints self);
    from_disco ← disco_entries disco;
    Return ((from_acs ++ from_metadata) ++ from_disco)
  else Return (from_acs ++ from_metadata).

(** Every URL of the list parses. *)
Definition all_parse (urls : list string) : Prop :=
  Forall (λ u, ∃ parsed, url_path u = Return parsed) urls.

End RegisterEndpoints.

(** A pattern that starts with [^] and ends with [$]. *)
Definition anchored (regex : string) : Prop :=
  ∃ body, regex = "^" +:+ body +:+ "$".

Section NameId.

(** [UserIdHashType] with the two members the backend names, and the two
    name-id format constants of the SAML library. *)
Context {UserIdHashType : Type} `{!EqDecision UserIdHashType}.
Variables (transient persistent : UserIdHashType).
Variables (NAMEID_FORMAT_TRANSIENT NAMEID_FORMAT_PERSISTENT : string).

(** [NameIDPolicy], restricted to its [format]. *)
Record NameIDPolicy : Type := { policy_format : option string }.

Definition create_name_id_policy (usr_id_hash_type : option UserIdHashType)
    : NameIDPolicy :=
  let nameid_format :=
    if decide (Some transient = usr_id_hash_type) then Some NAMEID_FORMAT_TRANSIENT
    else if decide (Some persistent = usr_id_hash_type)
         then Some NAMEID_FORMAT_PERSISTENT
         else None in
  {| policy_format := nameid_format |}.

Definition name_format_to_hash_type (name_format : option string)
    : option UserIdHashType :=
  if decide (name_format = Some NAMEID_FORMAT_TRANSIENT) then Some transient
  else if decide (name_format = Some NAMEID_FORMAT_PERSISTENT) then Some persistent
       else None.

End NameId.

End Saml2.

(** ** A small deployment

    Handlers are (callback, binding) pairs, which Python always takes as
    true. Patterns stay within the fragment of [PyRe.search]. *)

#[global] Instance pair_truthy : Truthy (string * string) := λ _, true.

Definition request (p : string) : Context :=
  {| path := Some p; target_backend := None; target_frontend := None;
     target_micro_service := None; state := ∅ |}.

(** A context on the outbound leg: no path, both targets chosen. *)
Definition outbound (backend frontend : option string) : Context :=
  {| path := None; target_backend := backend; target_frontend := frontend;
     target_micro_service := None; state := ∅ |}.

Definition saml_sp : FrontendModule (string * string) :=
  {| frontend_name := "saml-sp";
     frontend_register_endpoints := λ _, [("^metadata$", ("metadata", "redirect"))] |}.

Definition idp1 : BackendModule (string * string) :=
  {| backend_name := "idp1";
     backend_register_endpoints := [("^idp1/acs$", ("authn_response", "post"))] |}.

(** Base URL without a path. *)
Definition plain_router : ModuleRouter (string * string) :=
  {| base_url := "https://example.com";
     frontends :=
       [("saml-sp", {| instance := saml_sp;
                       endpoints := [("^metadata$", ("metadata", "redirect"))] |})];
     backends :=
       [("idp1", {| instance := idp1;
                    endpoints := [("^idp1/acs$", ("authn_response", "post"))] |})];
     micro_services := [] |}.

(** Base URL with the context path [ctx]. *)
Definition ctx_router : ModuleRouter (string * string) :=
  {| base_url := "https://example.com/ctx";
     frontends := frontends plain_router;
     backends := backends plain_router;
     micro_services := [] |}.

(** A frontend with a second pattern that spells the context out. *)
Definition legacy_sp : FrontendModule (string * string) :=
  {| frontend_name := "saml-sp";
     frontend_register_endpoints := λ _,
       [("^metadata$", ("metadata", "redirect"));
        ("^ctx/metadata$", ("legacy_metadata", "redirect"))] |}.

Definition legacy_entry : RegistryEntry (string * string) (FrontendModule (string * string)) :=
  {| instance := legacy_sp; endpoints := frontend_register_endpoints legacy_sp ["idp1"] |}.

(** Two frontends that register the same pattern. *)
Definition fe1 : FrontendModule (string * string) :=
  {| frontend_name := "fe1";
     frontend_register_endpoints := λ _, [("^metadata$", ("fe1_metadata", "redirect"))] |}.

Definition fe2 : FrontendModule (string * string) :=
  {| frontend_name := "fe2";
     frontend_register_endpoints := λ _, [("^metadata$", ("fe2_metadata", "redirect"))] |}.

Definition fe2_entry : RegistryEntry (string * string) (FrontendModule (string * string)) :=
  {| instance := fe2; endpoints := frontend_register_endpoints fe2 ["idp1"] |}.

Definition twin_router : ModuleRouter (string * string) :=
  {| base_url := "https://example.com";
     frontends :=
       [("fe1", {| instance := fe1;
                   endpoints := frontend_register_endpoints fe1 ["idp1"] |});
        ("fe2", fe2_entry)];
     backends := backends plain_router;
     micro_services := [] |}.

(** A frontend, a micro-service and a backend that all claim [idp1/acs]. *)
Definition greedy_sp : FrontendModule (string * string) :=
  {| frontend_name := "greedy-sp";
     frontend_register_endpoints := λ _, [("^idp1/acs$", ("handle_authn", "post"))] |}.

Definition consent : MicroService (string * string) :=
  {| micro_service_name := "consent";
     micro_service_register_endpoints := [("^idp1/acs$", ("handle_consent", "post"))] |}.

Definition greedy_entry : RegistryEntry (string * string) (FrontendModule (string * string)) :=
  {| instance := greedy_sp; endpoints := frontend_register_endpoints greedy_sp ["idp1"] |}.

Definition contested_router : ModuleRouter (string * string) :=
  {| base_url := "https://example.com";
     frontends := [("greedy-sp", greedy_entry)];
     backends := backends plain_router;
     micro_services :=
       [("consent", {| instance := consent;
                       endpoints := micro_service_register_endpoints consent |})] |}.

(** ** More of the deployment *)

(** A micro-service that claims the path of the backend. *)
Definition consent_router : ModuleRouter (string * string) :=
  {| base_url := "https://example.com";
     frontends := frontends plain_router;
     backends := backends plain_router;
     micro_services := micro_services contested_router |}.

(** A second backend whose pattern lies under the first one's name. *)
Definition idp2 : BackendModule (string * string) :=
  {| backend_name := "idp2";
     backend_register_endpoints := [("^idp1/login$", ("authn_response", "redirect"))] |}.

Definition two_backend_router : ModuleRouter (string * string) :=
  {| base_url := "https://example.com";
     frontends := frontends plain_router;
     backends :=
       backends plain_router
       ++ [("idp2", {| instance := idp2; endpoints := backend_register_endpoints idp2 |})];
     micro_services := [] |}.

(** Handlers given as plain strings: the empty one is false in Python. *)
#[global] Instance string_truthy : Truthy string := λ s,
  match s with
  | EmptyString => false
  | _ => true
  end.

Definition bare_router : ModuleRouter string :=
  {| base_url := "https://example.com"; frontends := []; backends := [];
     micro_services := [] |}.

Definition muted : MicroService string :=
  {| micro_service_name := "muted";
     micro_service_register_endpoints := [("^ping$", EmptyString); ("^ping$", "pong")] |}.

Definition echo : MicroService string :=
  {| micro_service_name := "echo";
     micro_service_register_endpoints := [("^ping$", "echo")] |}.

Definition muted_entry : RegistryEntry string (MicroService string) :=
  {| instance := muted; endpoints := micro_service_register_endpoints muted |}.

Definition echo_entry : RegistryEntry string (MicroService string) :=
  {| instance := echo; endpoints := micro_service_register_endpoints echo |}.

(** A SAML backend configured with endpoint URLs that are bare paths, which
    [urlparse] accepts and for which [urlparse(u).path] is [u] itself. *)
Definition saml_idp1 : Saml2.SamlBackend :=
  {| Saml2.sp_endpoints :=
       [("assertion_consumer_service",
         [("/idp1/acs/post", "urn:oasis:names:tc:SAML:2.0:bindings:HTTP-POST")]);
        ("discovery_response",
         [("/idp1/disco", "urn:oasis:names:tc:SAML:profiles:SSO:idp-discovery-protocol")])];
     Saml2.publish_metadata := Some "/idp1/metadata";
     Saml2.discosrv := Some "https://disco.example.org" |}.

(** The same backend with the discovery response endpoints left out of the
    configuration. *)
Definition saml_no_disco_endpoints : Saml2.SamlBackend :=
  {| Saml2.sp_endpoints :=
       [("assertion_consumer_service",
         [("/idp1/acs/post", "urn:oasis:names:tc:SAML:2.0:bindings:HTTP-POST")])];
     Saml2.publish_metadata := None;
     Saml2.discosrv := Some "https://disco.example.org" |}.

(** A hash type enumeration with one member besides the two the backend
    names. *)
Inductive SampleHashType : Type :=
| sample_transient
| sample_persistent
| sample_pairwise.

#[global] Instance sample_hash_type_eq_dec : EqDecision SampleHashType.
Proof. solve_decision. Defined.

(** ** The primitives on small inputs *)

Example split_plain : PyStr.split "/" "idp1/acs" = ["idp1"; "acs"].
Proof. reflexivity. Qed.

Example split_no_sep : PyStr.split "/" "ctx" = ["ctx"].
Proof. reflexivity. Qed.

Example split_url :
  PyStr.split "/" "https://example.com/ctx" = ["https:"; ""; "example.com"; "ctx"].
Proof. reflexivity. Qed.

Example split_trailing : PyStr.split "/" "a/" = ["a"; ""].
Proof. reflexivity. Qed.

Example replace_all_occurrences :
  PyStr.replace "ctx" "" None "ctx/a/ctx" = "/a/".
Proof. reflexivity. Qed.

Example replace_first_only : PyStr.replace "/" "" (Some 1) "/a/b" = "a/b".
Proof. reflexivity. Qed.

Example replace_no_overlap : PyStr.replace "aa" "b" None "aaa" = "ba".
Proof. reflexivity. Qed.

Example replace_empty_old : PyStr.replace "" "" None "a/b" = "a/b".
Proof. reflexivity. Qed.

Example replace_empty_old_dash : PyStr.replace "" "-" (Some 2) "abc" = "-a-bc".
Proof. reflexivity. Qed.

Example search_anchored_hit : PyRe.search "^metadata$" "metadata" = true.
Proof. reflexivity. Qed.

Example search_anchored_miss : PyRe.search "^metadata$" "ctx/metadata" = false.
Proof. reflexivity. Qed.

Example search_unanchored : PyRe.search "acs" "idp1/acs/post" = true.
Proof. reflexivity. Qed.

Example search_end_only : PyRe.search "acs$" "idp1/acs/post" = false.
Proof. reflexivity. Qed.

(** ** Facts about the string and list primitives *)

Section PrimitiveFacts.

Implicit Types (s w old : string) (c sep : ascii) (l : list string).

Lemma prefix_char_cons c d s :
  String.prefix (String c EmptyString) (String d s) = Ascii.eqb c d.
Proof.
  simpl. destruct (ascii_dec c d) as [->|Hne].
  - rewrite Ascii.eqb_refl. by destruct s.
  - symmetry. by apply Ascii.eqb_neq.
Qed.

Lemma contains_char_cons c d s :
  PyStr.contains (String c EmptyString) (String d s)
  = Ascii.eqb c d || PyStr.contains (String c EmptyString) s.
Proof.
  change (PyStr.contains (String c EmptyString) (String d s))
    with (String.prefix (String c EmptyString) (String d s)
          || PyStr.contains (String c EmptyString) s).
  by rewrite prefix_char_cons.
Qed.

Lemma split_not_nil sep s : PyStr.split sep s ≠ [].
Proof.
  destruct s as [|c s]; simpl; [done|].
  destruct (Ascii.eqb c sep); [done|]. by destruct (PyStr.split sep s).
Qed.

(** No piece of a split contains the separator. *)
Lemma split_pieces_sep_free sep s :
  Forall (λ w, PyStr.contains (String sep EmptyString) w = false) (PyStr.split sep s).
Proof.
  induction s as [|c s IH]; simpl.
  - by repeat constructor.
  - destruct (Ascii.eqb c sep) eqn:Hc.
    + by constructor.
    + destruct (PyStr.split sep s) as [|w ws].
      * constructor; [|done].
        by rewrite contains_char_cons, Ascii.eqb_sym, Hc.
      * inversion IH; subst. constructor; [|done].
        by rewrite contains_char_cons, Ascii.eqb_sym, Hc.
Qed.

(** A string without the separator is its own single piece. *)
Lemma split_sep_free sep s :
  PyStr.contains (String sep EmptyString) s = false → PyStr.split sep s = [s].
Proof.
  induction s as [|c s IH]; [done|].
  rewrite contains_char_cons. intros [Hc Hs]%orb_false_elim.
  simpl. rewrite Ascii.eqb_sym, Hc, (IH Hs). done.
Qed.

Lemma last_or_elem d l : l ≠ [] → PyList.last_or d l ∈ l.
Proof.
  unfold PyList.last_or. induction l as [|x [|y l] IH]; intros Hl; [done| |].
  - simpl. left.
  - right. apply IH. done.
Qed.

Lemma remove_none_iff w l : PyList.remove w l = None ↔ w ∉ l.
Proof.
  induction l as [|y l IH]; simpl.
  - split; [intros _; apply not_elem_of_nil | done].
  - destruct (decide (y = w)) as [->|Hne].
    + split; [done|]. intros []. left.
    + destruct (PyList.remove w l) as [r|].
      * split; [done|]. intros Hnot. exfalso.
        assert (w ∉ l) as Hl by (intros ?; apply Hnot; by right).
        apply IH in Hl. done.
      * split; [|done]. intros _ [Heq|Hin]%elem_of_cons; [done|].
        by apply (proj1 IH).
Qed.

Lemma remove_singleton w : PyList.remove w [w] = Some [].
Proof. simpl. by rewrite decide_True. Qed.

End PrimitiveFacts.

Section ReplaceFacts.

Implicit Types (s a old new : string) (count : option nat).

Lemma prefix_append a s : String.prefix a (a +:+ s) = true.
Proof.
  induction a as [|c a IH]; simpl; [by destruct s|].
  destruct (ascii_dec c c); done.
Qed.

(** Characters of an occurrence already found are dropped unread. *)
Lemma replace_scan_skip old new count a s :
  PyStr.replace_scan old new (String.length a) count (a +:+ s)
  = PyStr.replace_scan old new 0 count s.
Proof. induction a as [|c a IH]; simpl; [by destruct s|done]. Qed.

(** Nothing changes where [old] does not occur. *)
Lemma replace_scan_absent old new count s :
  PyStr.contains old s = false → PyStr.replace_scan old new 0 count s = s.
Proof.
  induction s as [|c s IH]; [done|].
  intros Hc.
  change (String.prefix old (String c s) || PyStr.contains old s = false) in Hc.
  apply orb_false_elim in Hc as [Hp Hs].
  change (PyStr.replace_scan old new 0 count (String c s))
    with (if PyStr.may_replace count && String.prefix old (String c s)
          then new +:+ PyStr.replace_scan old new (pred (String.length old))
                         (PyStr.spend count) s
          else String c (PyStr.replace_scan old new 0 count s)).
  rewrite Hp, andb_false_r, (IH Hs). done.
Qed.

(** Nothing changes once the replacement budget is used up. *)
Lemma replace_scan_spent old new s :
  PyStr.replace_scan old new 0 (Some 0) s = s.
Proof. induction s as [|c s IH]; simpl; [done|by rewrite IH]. Qed.

(** Deleting [old] from a string that starts with its only occurrence. *)
Lemma replace_leading_occurrence old s :
  old ≠ EmptyString →
  PyStr.contains old s = false →
  PyStr.replace old EmptyString None (old +:+ s) = s.
Proof.
  intros Hold Hs. destruct old as [|c old']; [done|].
  unfold PyStr.replace.
  change (PyStr.replace_scan (String c old') EmptyString 0 None
            (String c old' +:+ s))
    with (if String.prefix (String c old') (String c old' +:+ s)
          then PyStr.replace_scan (String c old') EmptyString
                 (String.length old') None (old' +:+ s)
          else String c (PyStr.replace_scan (String c old') EmptyString 0 None
                           (old' +:+ s))).
  rewrite prefix_append, replace_scan_skip. by apply replace_scan_absent.
Qed.

(** Deleting the first ["/"] of a string that starts with one. *)
Lemma replace_leading_slash s :
  PyStr.replace "/" EmptyString (Some 1) (String "/" s) = s.
Proof.
  unfold PyStr.replace. simpl. destruct s; simpl; by rewrite ?replace_scan_spent.
Qed.

End ReplaceFacts.

(** ** Facts about dictionaries *)

Section DictFacts.

Context {V : Type}.
Implicit Types (d : dict V) (k : string) (v : V).

Lemma dict_getitem_mem k d :
  dict_mem k d = true → ∃ v, dict_getitem (Some k) d = Return v.
Proof.
  unfold dict_mem, dict_getitem. destruct (dict_get k d) as [v|]; [eauto|done].
Qed.

Lemma dict_getitem_not_mem k d :
  dict_mem k d = false → dict_getitem (Some k) d = Raise (KeyError (Some k)).
Proof.
  unfold dict_mem, dict_getitem. by destruct (dict_get k d).
Qed.

Lemma dict_get_elem k v d : dict_get k d = Some v → (k, v) ∈ d.
Proof.
  induction d as [|[k' v'] d IH]; simpl; [done|].
  destruct (decide (k' = k)) as [->|_].
  - intros [= ->]. left.
  - intros Hd. right. by apply IH.
Qed.

(** A property of all entries survives an assignment that satisfies it. *)
Lemma dict_set_Forall (P : string * V → Prop) k v d :
  Forall P d → P (k, v) → Forall P (dict_set k v d).
Proof.
  intros Hd Hkv. induction Hd as [|[k' v'] d Hx Hd IH]; simpl.
  - by repeat constructor.
  - destruct (decide (k' = k)); by constructor.
Qed.

Lemma fold_dict_set_Forall {A : Type} (P : string * V → Prop)
    (key : A → string) (val : A → V) (xs : list A) (acc : dict V) :
  Forall P acc →
  (∀ x, x ∈ xs → P (key x, val x)) →
  Forall P (fold_left (λ d x, dict_set (key x) (val x) d) xs acc).
Proof.
  revert acc. induction xs as [|x xs IH]; intros acc Hacc Hxs; simpl; [done|].
  apply IH.
  - apply dict_set_Forall; [done|]. apply Hxs. left.
  - intros y Hy. apply Hxs. by right.
Qed.

(** Every entry of a comprehension comes from an element of its source. *)
Lemma dict_comprehension_Forall {A : Type} (key : A → string) (val : A → V)
    (xs : list A) :
  Forall (λ kv, ∃ x, x ∈ xs ∧ kv.1 = key x ∧ kv.2 = val x)
    (dict_comprehension key val xs).
Proof.
  unfold dict_comprehension. apply fold_dict_set_Forall; [constructor|].
  intros x Hx. by exists x.
Qed.

Lemma dict_comprehension_get {A : Type} (key : A → string) (val : A → V)
    (xs : list A) k v :
  dict_get k (dict_comprehension key val xs) = Some v →
  ∃ x, x ∈ xs ∧ k = key x ∧ v = val x.
Proof.
  intros Hget%dict_get_elem.
  pose proof (dict_comprehension_Forall key val xs) as Hall.
  rewrite Forall_forall in Hall. by apply Hall in Hget.
Qed.

End DictFacts.

(** ** Facts about the concrete reading of the debug call *)

Section FormatFacts.

Implicit Types (s t : string) (c : ascii) (pieces : list string).

Lemma append_cons c s t : String c s +:+ t = String c (s +:+ t).
Proof. reflexivity. Qed.

Lemma contains_char_empty c : PyStr.contains (String c EmptyString) EmptyString = false.
Proof. reflexivity. Qed.

Lemma contains_char_append c s t :
  PyStr.contains (String c EmptyString) (s +:+ t)
  = PyStr.contains (String c EmptyString) s || PyStr.contains (String c EmptyString) t.
Proof.
  induction s as [|d s IH]; [done|].
  rewrite append_cons, !contains_char_cons, IH. by rewrite orb_assoc.
Qed.

Lemma brace_free_append s t : brace_free (s +:+ t) = brace_free s && brace_free t.
Proof.
  unfold brace_free. rewrite !contains_char_append.
  by destruct (PyStr.contains "{" s), (PyStr.contains "}" s),
       (PyStr.contains "{" t), (PyStr.contains "}" t).
Qed.

Lemma brace_free_cons c s :
  brace_free (String c s) = negb (Ascii.eqb c "{") && negb (Ascii.eqb c "}") && brace_free s.
Proof.
  unfold brace_free. rewrite !contains_char_cons.
  rewrite (Ascii.eqb_sym "{" c), (Ascii.eqb_sym "}" c).
  by destruct (Ascii.eqb c "{"), (Ascii.eqb c "}"),
       (PyStr.contains "{" s), (PyStr.contains "}" s).
Qed.

(** A text without braces holds no replacement field and no stray brace. *)
Lemma scan_brace_free s : brace_free s = true → PyFormat.scan PyFormat.Text s = None.
Proof.
  induction s as [|c s IH]; [done|].
  rewrite brace_free_cons. intros [[Ho Hc]%andb_prop Hs]%andb_prop.
  apply negb_true_iff in Ho, Hc. simpl. rewrite Ho, Hc. by apply IH.
Qed.

Lemma join_reprs_brace_free pieces :
  Forall (λ w, brace_free w = true) pieces →
  brace_free (PyFormat.join ", " (PyFormat.repr <$> pieces)) = true.
Proof.
  induction 1 as [|w pieces Hw Hpieces IH]; [done|].
  assert (brace_free (PyFormat.repr w) = true) as Hrepr.
  { unfold PyFormat.repr. by rewrite !brace_free_append, Hw. }
  destruct pieces as [|w' pieces]; [exact Hrepr|].
  change (PyFormat.join ", " (PyFormat.repr <$> w :: w' :: pieces))
    with (PyFormat.repr w +:+ ", " +:+ PyFormat.join ", " (PyFormat.repr <$> w' :: pieces)).
  by rewrite !brace_free_append, Hrepr, IH.
Qed.

(** The debug call on a split without braces in its pieces does not raise. *)
Lemma path_splits_error_brace_free pieces :
  Forall (λ w, brace_free w = true) pieces →
  PyFormat.path_splits_error pieces = None.
Proof.
  intros Hpieces. unfold PyFormat.path_splits_error, PyFormat.render.
  apply scan_brace_free.
  by rewrite !brace_free_append, (join_reprs_brace_free pieces Hpieces).
Qed.

End FormatFacts.

(** ** Facts about the table search *)

Section SearchFacts.

Context {Handler : Type} `{!Truthy Handler}.
Variable re_search : string → string → bool.

Implicit Types (self : ModuleRouter Handler) (context : Context).
Implicit Types (table pre post : EndpointTable Handler) (p regex : string).

Lemma pattern_matches_true_iff self regex p :
  pattern_matches re_search self regex p = true ↔
  re_search regex p = true
  ∨ (re_search regex p = false ∧ has_context_path self = true
     ∧ re_search regex (remove_context self p) = true).
Proof.
  unfold pattern_matches.
  destruct (re_search regex p), (has_context_path self); simpl; intuition congruence.
Qed.

Lemma pattern_matches_false_iff self regex p :
  pattern_matches re_search self regex p = false ↔
  re_search regex p = false
  ∧ (has_context_path self = true → re_search regex (remove_context self p) = false).
Proof.
  unfold pattern_matches.
  destruct (re_search regex p), (has_context_path self); simpl; intuition congruence.
Qed.

Lemma search_endpoints_hit self regex spec post context p :
  path context = Some p →
  pattern_matches re_search self regex p = true →
  search_endpoints re_search self ((regex, spec) :: post) context = Return (Some spec).
Proof. intros Hp Hm. simpl. by rewrite Hp, Hm. Qed.

Lemma search_endpoints_skip self pre table context p :
  path context = Some p →
  no_pattern_matches re_search self pre p →
  search_endpoints re_search self (pre ++ table) context
  = search_endpoints re_search self table context.
Proof.
  intros Hp Hpre. induction Hpre as [|[regex spec] pre Hx _ IH]; [done|].
  simpl in *. by rewrite Hp, Hx.
Qed.

Lemma search_endpoints_miss self table context p :
  path context = Some p →
  no_pattern_matches re_search self table p →
  search_endpoints re_search self table context = Return None.
Proof.
  intros Hp Hall.
  rewrite <- (app_nil_r table), (search_endpoints_skip _ _ _ _ p); done.
Qed.

(** With a path present the loop always returns: the handler of the first
    pattern that matches, or [None] when none does. *)
Lemma search_endpoints_cases self table context p :
  path context = Some p →
  (∃ pre regex spec post,
      table = pre ++ (regex, spec) :: post
      ∧ no_pattern_matches re_search self pre p
      ∧ pattern_matches re_search self regex p = true
      ∧ search_endpoints re_search self table context = Return (Some spec))
  ∨ (no_pattern_matches re_search self table p
     ∧ search_endpoints re_search self table context = Return None).
Proof.
  intros Hp. induction table as [|[regex spec] table IH].
  - right. split; [constructor|done].
  - destruct (pattern_matches re_search self regex p) eqn:Hm.
    + left. exists [], regex, spec, table.
      split_and!; [done|constructor|done|by eapply search_endpoints_hit].
    + destruct IH as [(pre & regex' & spec' & post & -> & Hpre & Hm' & Hs)|[Hall Hs]].
      * left. exists ((regex, spec) :: pre), regex', spec', post.
        split_and!; [done|by constructor|done|].
        simpl. by rewrite Hp, Hm.
      * right. split; [by constructor|]. simpl. by rewrite Hp, Hm.
Qed.

Section Registry.

Context {I : Type} `{!Named I}.
Implicit Types (module : RegistryEntry Handler I).
Implicit Types (modules : dict (RegistryEntry Handler I)).

Lemma find_registered_skip self context modules rest p :
  path context = Some p →
  no_module_matches re_search self modules p →
  _find_registered_endpoint re_search self context (modules ++ rest)
  = _find_registered_endpoint re_search self context rest.
Proof.
  intros Hp Hall. induction Hall as [|[k module] modules Hx _ IH]; [done|].
  simpl in *. unfold _find_registered_endpoint_for_module.
  by rewrite (search_endpoints_miss _ _ _ p Hp Hx).
Qed.

Lemma find_registered_hit self context k module rest pre regex spec post p :
  path context = Some p →
  endpoints module = pre ++ (regex, spec) :: post →
  no_pattern_matches re_search self pre p →
  pattern_matches re_search self regex p = true →
  truthy spec = true →
  _find_registered_endpoint re_search self context ((k, module) :: rest)
  = Return (name (instance module), spec).
Proof.
  intros Hp Htable Hpre Hm Ht. simpl. unfold _find_registered_endpoint_for_module.
  rewrite Htable, (search_endpoints_skip _ _ _ _ p Hp Hpre).
  rewrite (search_endpoints_hit _ _ _ _ _ p Hp Hm). simpl. by rewrite Ht.
Qed.

Lemma find_registered_none self context modules p :
  path context = Some p →
  no_module_matches re_search self modules p →
  _find_registered_endpoint re_search self context modules
  = Raise (UnknownEndpoint (Some p)).
Proof.
  intros Hp Hall.
  rewrite <- (app_nil_r modules), (find_registered_skip _ _ _ _ p Hp Hall).
  simpl. by rewrite Hp.
Qed.

(** With a path present the search over a registry returns a module name
    and handler, or raises [UnknownEndpoint]; nothing else. *)
Lemma find_registered_cases self context modules p :
  path context = Some p →
  (∃ n h, _find_registered_endpoint re_search self context modules = Return (n, h))
  ∨ _find_registered_endpoint re_search self context modules
    = Raise (UnknownEndpoint (Some p)).
Proof.
  intros Hp. induction modules as [|[k module] modules IH]; simpl.
  - right. by rewrite Hp.
  - unfold _find_registered_endpoint_for_module.
    destruct (search_endpoints_cases self (endpoints module) context p Hp)
      as [(pre & regex & spec & post & _ & _ & _ & ->)|[_ ->]]; simpl; [|done].
    destruct (truthy spec); [left; eauto|done].
Qed.

End Registry.

Lemma find_backend_returns self context p b :
  path context = Some p →
  target_backend context = Some b →
  dict_mem b (backends self) = true →
  ∃ r, _find_registered_backend_endpoint re_search self context = Return r.
Proof.
  intros Hp Hb Hmem. unfold _find_registered_backend_endpoint. rewrite Hb.
  destruct (dict_getitem_mem _ _ Hmem) as [entry ->]. simpl.
  unfold _find_registered_endpoint_for_module.
  destruct (search_endpoints_cases self (endpoints entry) context p Hp)
    as [(pre & regex & spec & post & _ & _ & _ & ->)|[_ ->]]; eauto.
Qed.

End SearchFacts.

(** ** Registry bootstrap and the continuation entry *)

Section Continuation.

Context {Handler : Type}.

Implicit Types (self : ModuleRouter Handler) (context fresh : Context).
Implicit Types (fes : list (FrontendModule Handler)) (bes : list (BackendModule Handler)).
Implicit Types (mss : option (list (MicroService Handler))) (url : option string).

Lemma init_returns_inv url fes bes mss self :
  __init__ url fes bes mss = Return self →
  url ≠ None ∧ url ≠ Some EmptyString ∧ fes ≠ [] ∧ bes ≠ []
  ∧ frontends self
    = dict_comprehension name
        (λ i, {| instance := i;
                 endpoints := frontend_register_endpoints i (backend_name <$> bes) |})
        fes.
Proof.
  unfold __init__. destruct url as [[|c u]|]; [done| |done].
  destruct fes as [|fe fes]; [done|]. destruct bes as [|be bes]; [done|].
  intros [= <-]. done.
Qed.

(** In a router built by [__init__] every frontend is filed under its own
    name and is one of the instances supplied. *)
Lemma init_frontend_names url fes bes mss self k entry :
  __init__ url fes bes mss = Return self →
  dict_get k (frontends self) = Some entry →
  name (instance entry) = k ∧ instance entry ∈ fes.
Proof.
  intros (_ & _ & _ & _ & ->)%init_returns_inv Hget.
  apply dict_comprehension_get in Hget as (x & Hx & -> & ->). done.
Qed.


(** C10: when [target_backend] does not name a registered backend,
    [backend_routing] raises the lookup error and hands the context back as
    it was, the [ROUTER] entry of its state included. *)
Theorem backend_routing_unknown_backend self context :
  (∀ b, target_backend context = Some b → dict_mem b (backends self) = false) →
  backend_routing self context = (Raise (KeyError (target_backend context)), context)
  ∧ state (backend_routing self context).2 !! STATE_KEY = state context !! STATE_KEY.
Proof.
  intros Hunknown.
  assert (backend_routing self context
          = (Raise (KeyError (target_backend context)), context)) as ->; [|done].
  unfold backend_routing. destruct (target_backend context) as [b|]; [|done].
  by rewrite (dict_getitem_not_mem _ _ (Hunknown b eq_refl)).
Qed.

(** C9: when the state has no [ROUTER] entry, or the entry does not name a
    registered frontend, [frontend_routing] raises a lookup error and returns
    no frontend at all. *)
Theorem frontend_routing_lookup_failure self context :
  (state context !! STATE_KEY = None
   ∨ ∃ v, state context !! STATE_KEY = Some v
          ∧ ∀ f, v = Some f → dict_mem f (frontends self) = false) →
  (∃ k, (frontend_routing self context).1 = Raise (KeyError k))
  ∧ (∀ frontend, (frontend_routing self context).1 ≠ Return frontend).
Proof.
  intros Hstate.
  assert (∃ k, (frontend_routing self context).1 = Raise (KeyError k)) as [k Hk].
  { unfold frontend_routing. destruct Hstate as [->|(v & -> & Hv)]; [by eexists|].
    simpl. destruct v as [f|]; [|by eexists].
    rewrite (dict_getitem_not_mem _ _ (Hv f eq_refl)). by eexists. }
  split; [by exists k|]. intros frontend. by rewrite Hk.
Qed.

(** C5: in a router built by [__init__], when [target_frontend] is the
    registered frontend name [f] and [target_backend] the registered backend
    name [b], [backend_routing] returns the instance filed under [b] and
    leaves [f] under [ROUTER]; any fresh context carrying that state makes
    [frontend_routing] set [target_frontend] to [f] and return the instance
    filed under [f] in the frontend registry, which is one of the frontends
    the router was built from and whose name is [f]. *)
Theorem backend_frontend_round_trip url fes bes mss self context f b :
  __init__ url fes bes mss = Return self →
  target_frontend context = Some f →
  dict_mem f (frontends self) = true →
  target_backend context = Some b →
  dict_mem b (backends self) = true →
  ∃ bentry fentry context',
    dict_get b (backends self) = Some bentry
    ∧ dict_get f (frontends self) = Some fentry
    ∧ backend_routing self context = (Return (instance bentry), context')
    ∧ state context' !! STATE_KEY = Some (Some f)
    ∧ (∀ fresh, state fresh = state context' →
         frontend_routing self fresh
         = (Return (instance fentry), set_target_frontend (Some f) fresh))
    ∧ instance fentry ∈ fes
    ∧ name (instance fentry) = f.
Proof.
  intros Hinit Hf Hfmem Hb Hbmem.
  unfold dict_mem in Hfmem, Hbmem.
  destruct (dict_get f (frontends self)) as [fentry|] eqn:Hfget; [|done].
  destruct (dict_get b (backends self)) as [bentry|] eqn:Hbget; [|done].
  destruct (init_frontend_names _ _ _ _ _ _ _ Hinit Hfget) as [Hname Hin].
  exists bentry, fentry,
    (set_state (<[STATE_KEY := target_frontend context]> (state context)) context).
  split_and!; try done.
  - unfold backend_routing, dict_getitem. by rewrite Hb, Hbget.
  - simpl. rewrite Hf. apply lookup_insert_eq.
  - intros fresh Hfresh. unfold frontend_routing. rewrite Hfresh. simpl.
    rewrite lookup_insert_eq, Hf. simpl. unfold dict_getitem. by rewrite Hfget.
Qed.

End Continuation.

(** ** Inbound routing *)

Section Inbound.

Context {Handler : Type} `{!Truthy Handler}.
Variable re_search : string → string → bool.
Variable format_path_splits : list string → option format_error.

Implicit Types (self other : ModuleRouter Handler) (context : Context).
Implicit Types (p regex backend : string) (rest : list string).

(** The context segment of a base URL never contains a slash. *)
Lemma base_url_context_sep_free self :
  PyStr.contains "/" (base_url_context self) = false.
Proof.
  unfold base_url_context.
  pose proof (split_pieces_sep_free "/" (base_url self)) as Hall.
  rewrite Forall_forall in Hall. apply Hall, last_or_elem, split_not_nil.
Qed.

(** Where the removal of the context works as a prefix removal: the path
    starts with the context segment and a slash, and the segment does not
    occur again. *)
Lemma remove_context_prefixed self p :
  base_url_context self ≠ EmptyString →
  PyStr.contains (base_url_context self) (String "/" p) = false →
  remove_context self (base_url_context self +:+ String "/" p) = p.
Proof.
  intros Hne Habsent. unfold remove_context.
  rewrite (replace_leading_occurrence _ _ Hne Habsent).
  apply replace_leading_slash.
Qed.

(** A path without the context segment among its pieces stops the routing
    at [path_split.remove], once the debug call on the split is passed. *)
Lemma endpoint_routing_unprefixed_raises self context p :
  has_context_path self = true →
  path context = Some p →
  format_path_splits (PyStr.split "/" p) = None →
  base_url_context self ∉ PyStr.split "/" p →
  endpoint_routing re_search format_path_splits self context
  = (Raise (ValueError "list.remove(x): x not in list"), context).
Proof.
  intros Hctx Hp Hlog Hnot. unfold endpoint_routing, split_path.
  rewrite Hp, Hlog, Hctx. by rewrite (proj2 (remove_none_iff _ _) Hnot).
Qed.

(** X18: The debug call on the split comes before everything else done with
    the path: when it raises, the error leaves [endpoint_routing] with the
    context as it was, so nothing has been removed, noted or searched. *)
Theorem endpoint_routing_debug_call_raises self context p e :
  path context = Some p →
  format_path_splits (PyStr.split "/" p) = Some e →
  endpoint_routing re_search format_path_splits self context
  = (Raise (format_exn e), context).
Proof.
  intros Hp Hlog. unfold endpoint_routing, split_path. by rewrite Hp, Hlog.
Qed.

(** What is left once the path is split and the candidate backend noted. *)
Lemma endpoint_routing_after_split self context p backend rest :
  path context = Some p →
  split_path format_path_splits self p = Return (backend :: rest) →
  let noted :=
    if dict_mem backend (backends self)
    then set_target_backend (Some backend) context else context in
  path noted = Some p
  ∧ (dict_mem backend (backends self) = true → target_backend noted = Some backend).
Proof.
  intros Hp _. simpl. destruct (dict_mem backend (backends self)); done.
Qed.

(** With a path present, [endpoint_routing] returns a handler or raises one
    of three errors, or what the debug call on the split raises. *)
Lemma endpoint_routing_outcomes self context p :
  path context = Some p →
  (∃ h, (endpoint_routing re_search format_path_splits self context).1 = Return h)
  ∨ (endpoint_routing re_search format_path_splits self context).1
    = Raise (ValueError "list.remove(x): x not in list")
  ∨ (endpoint_routing re_search format_path_splits self context).1
    = Raise (IndexError "list index out of range")
  ∨ (endpoint_routing re_search format_path_splits self context).1 = Raise (not_bound p)
  ∨ (∃ e, (endpoint_routing re_search format_path_splits self context).1
          = Raise (format_exn e)).
Proof.
  intros Hp. unfold endpoint_routing. rewrite Hp.
  destruct (split_path format_path_splits self p) as [[|backend rest]|e] eqn:Hsplit.
  - right; right; left. done.
  - destruct (endpoint_routing_after_split self context p backend rest Hp Hsplit)
      as [Hp' Hb'].
    set (noted := if dict_mem backend (backends self)
                  then set_target_backend (Some backend) context else context) in *.
    destruct (find_registered_cases re_search self noted (frontends self) p Hp')
      as [(n & h & ->)| ->]; [left; by eexists|].
    destruct (find_registered_cases re_search self noted (micro_services self) p Hp')
      as [(n & h & ->)| ->]; [left; by eexists|].
    destruct (dict_mem backend (backends self)) eqn:Hmem;
      [|by right; right; right; left].
    destruct (find_backend_returns re_search self noted p backend Hp' (Hb' eq_refl) Hmem)
      as [[spec|] ->]; [|by right; right; right; left].
    destruct (truthy spec); [left; by eexists|by right; right; right; left].
  - unfold split_path in Hsplit.
    destruct (format_path_splits (PyStr.split "/" p)) as [fe|].
    { injection Hsplit as <-. repeat right. by exists fe. }
    destruct (has_context_path self); [|done].
    destruct (PyList.remove _ _); [done|]. injection Hsplit as <-.
    right; left. done.
Qed.

(** C6: [endpoint_routing] raises the bad-context error exactly when the
    path is absent; in that case the error is raised for any router and the
    context comes back untouched, so nothing was normalised, selected or
    searched. *)
Theorem endpoint_routing_bad_context_iff self context :
  ((∃ msg, (endpoint_routing re_search format_path_splits self context).1
           = Raise (SATOSABadContextError msg))
   ↔ path context = None)
  ∧ (path context = None →
     ∀ other, endpoint_routing re_search format_path_splits other context
              = (Raise (SATOSABadContextError "Context did not contain any path"),
                 context)).
Proof.
  split.
  - split.
    + intros [msg Hraise]. destruct (path context) as [p|] eqn:Hp; [|done].
      destruct (endpoint_routing_outcomes self context p Hp)
        as [[h Hr]|[Hr|[Hr|[Hr|[e Hr]]]]]; rewrite Hr in Hraise; [done..|].
      by destruct e.
    + intros Hp. unfold endpoint_routing. rewrite Hp. by eexists.
  - intros Hp other. unfold endpoint_routing. by rewrite Hp.
Qed.

(** When the split succeeds and no table has a matching pattern, the
    requested path is reported as not bound. *)
Lemma endpoint_routing_no_match_not_bound self context p backend rest :
  path context = Some p →
  split_path format_path_splits self p = Return (backend :: rest) →
  no_module_matches re_search self (frontends self) p →
  no_module_matches re_search self (micro_services self) p →
  no_module_matches re_search self (backends self) p →
  (endpoint_routing re_search format_path_splits self context).1 = Raise (not_bound p).
Proof.
  intros Hp Hsplit Hfe Hms Hbe. unfold endpoint_routing. rewrite Hp, Hsplit.
  destruct (endpoint_routing_after_split self context p backend rest Hp Hsplit)
    as [Hp' Hb'].
  set (noted := if dict_mem backend (backends self)
                then set_target_backend (Some backend) context else context) in *.
  rewrite (find_registered_none re_search self noted _ p Hp' Hfe).
  rewrite (find_registered_none re_search self noted _ p Hp' Hms).
  destruct (dict_mem backend (backends self)) eqn:Hmem; [|done].
  unfold _find_registered_backend_endpoint. rewrite (Hb' eq_refl).
  unfold dict_mem in Hmem. unfold dict_getitem.
  destruct (dict_get backend (backends self)) as [entry|] eqn:Hget; [|done].
  simpl. unfold _find_registered_endpoint_for_module.
  apply dict_get_elem in Hget.
  unfold no_module_matches in Hbe. rewrite Forall_forall in Hbe.
  pose proof (Hbe _ Hget) as Hentry. simpl in Hentry.
  by rewrite (search_endpoints_miss re_search self _ noted p Hp' Hentry).
Qed.

(** C2 (as the code behaves): whenever the base URL has a context path, a
    request path equal to the context segment never yields a handler or the
    no-bound-endpoint error: past the debug call on the split, the removal of
    the segment leaves [path_split] empty and [path_split[0]] raises
    [IndexError]; the only other outcome is that the debug call itself
    raises. *)
Theorem endpoint_routing_context_only_index_error self context :
  has_context_path self = true →
  path context = Some (base_url_context self) →
  endpoint_routing re_search format_path_splits self context
  = (Raise match format_path_splits [base_url_context self] with
           | Some e => format_exn e
           | None => IndexError "list index out of range"
           end,
     context).
Proof.
  intros Hctx Hp. unfold endpoint_routing, split_path. rewrite Hp.
  rewrite (split_sep_free "/" _ (base_url_context_sep_free self)).
  destruct (format_path_splits [base_url_context self]); [done|].
  by rewrite Hctx, remove_singleton.
Qed.

(** C3 (amended): the two attempts are made pattern by pattern. The search
    returns the handler of the first pattern, in registration order, that
    matches the raw path or, failing that and with a context path in the base
    URL, matches the path with the context removed; it returns [None] when no
    pattern matches in either way. On a path made of the context segment, a
    slash and a remainder free of the segment, the removal yields the
    remainder. *)
Theorem find_for_module_two_pass_per_pattern {I : Type} self
    (module : RegistryEntry Handler I) context p :
  path context = Some p →
  (∀ spec,
     _find_registered_endpoint_for_module re_search self module context
     = Return (Some spec)
     ↔ ∃ pre regex post,
         endpoints module = pre ++ (regex, spec) :: post
         ∧ Forall (λ e, re_search e.1 p = false
                        ∧ (has_context_path self = true →
                           re_search e.1 (remove_context self p) = false)) pre
         ∧ (re_search regex p = true
            ∨ (re_search regex p = false ∧ has_context_path self = true
               ∧ re_search regex (remove_context self p) = true)))
  ∧ (_find_registered_endpoint_for_module re_search self module context = Return None
     ↔ Forall (λ e, re_search e.1 p = false
                    ∧ (has_context_path self = true →
                       re_search e.1 (remove_context self p) = false))
         (endpoints module))
  ∧ (∀ tail,
       base_url_context self ≠ EmptyString →
       PyStr.contains (base_url_context self) (String "/" tail) = false →
       remove_context self (base_url_context self +:+ String "/" tail) = tail).
Proof.
  intros Hp. unfold _find_registered_endpoint_for_module.
  assert (∀ table,
            Forall (λ e, re_search e.1 p = false
                         ∧ (has_context_path self = true →
                            re_search e.1 (remove_context self p) = false)) table
            ↔ no_pattern_matches re_search self table p) as Hno.
  { intros table. unfold no_pattern_matches. apply Forall_proper; [|done].
    intros e. symmetry. apply pattern_matches_false_iff. }
  split_and!.
  - intros spec. split.
    + intros Hs.
      destruct (search_endpoints_cases re_search self (endpoints module) context p Hp)
        as [(pre & regex & spec' & post & Ht & Hpre & Hm & Hs')|[_ Hs']];
        rewrite Hs' in Hs; [|done].
      injection Hs as <-. exists pre, regex, post.
      split_and!; [done|by apply Hno|by apply pattern_matches_true_iff].
    + intros (pre & regex & post & -> & Hpre%Hno & Hm%pattern_matches_true_iff).
      rewrite (search_endpoints_skip re_search self _ _ context p Hp Hpre).
      by apply (search_endpoints_hit re_search self _ _ _ context p).
  - rewrite Hno. split.
    + intros Hs.
      destruct (search_endpoints_cases re_search self (endpoints module) context p Hp)
        as [(pre & regex & spec' & post & Ht & Hpre & Hm & Hs')|[Hall _]];
        [by rewrite Hs' in Hs|done].
    + by apply search_endpoints_miss.
  - intros tail. apply remove_context_prefixed.
Qed.

(** C4 (amended): when the split of the path succeeds, the debug call on it
    included, the first frontend in
    registry order that has a matching pattern is the one routed to, provided
    the handler of its first matching pattern is true: [target_frontend]
    becomes its name and that handler is returned, whatever the micro-service
    and backend tables contain. *)
Theorem endpoint_routing_first_matching_frontend self context p backend rest
    earlier k F later pre regex spec post :
  path context = Some p →
  split_path format_path_splits self p = Return (backend :: rest) →
  frontends self = earlier ++ (k, F) :: later →
  no_module_matches re_search self earlier p →
  endpoints F = pre ++ (regex, spec) :: post →
  no_pattern_matches re_search self pre p →
  pattern_matches re_search self regex p = true →
  truthy spec = true →
  endpoint_routing re_search format_path_splits self context
  = (Return spec,
     set_target_frontend (Some (name (instance F)))
       (if dict_mem backend (backends self)
        then set_target_backend (Some backend) context else context)).
Proof.
  intros Hp Hsplit Hfes Hearlier HF Hpre Hm Ht.
  unfold endpoint_routing. rewrite Hp, Hsplit.
  destruct (endpoint_routing_after_split self context p backend rest Hp Hsplit)
    as [Hp' _].
  set (noted := if dict_mem backend (backends self)
                then set_target_backend (Some backend) context else context) in *.
  rewrite Hfes, (find_registered_skip re_search self noted _ _ p Hp' Hearlier).
  by rewrite (find_registered_hit re_search self noted k F later pre regex spec post p).
Qed.

End Inbound.

(** ** The shape of an inbound routing *)

Section Shape.

Context {Handler : Type} `{!Truthy Handler}.
Variable re_search : string → string → bool.
Variable format_path_splits : list string → option format_error.

Implicit Types (self other : ModuleRouter Handler) (context c d : Context).
Implicit Types (p regex backend : string) (rest : list string).

(** The searches read the context through its path only. *)
Lemma search_endpoints_path_only self table c d :
  path c = path d →
  search_endpoints re_search self table c = search_endpoints re_search self table d.
Proof.
  intros Hpath. induction table as [|[regex spec] table IH]; simpl; [done|].
  rewrite <- Hpath. destruct (path c); [|done]. by rewrite IH.
Qed.

Lemma find_registered_path_only {I : Type} `{!Named I} self c d
    (modules : dict (RegistryEntry Handler I)) :
  path c = path d →
  _find_registered_endpoint re_search self c modules
  = _find_registered_endpoint re_search self d modules.
Proof.
  intros Hpath. induction modules as [|[k module] modules IH]; simpl.
  - by rewrite Hpath.
  - unfold _find_registered_endpoint_for_module.
    rewrite (search_endpoints_path_only self _ c d Hpath).
    destruct (search_endpoints re_search self (endpoints module) d) as [[spec|]|e];
      simpl; [|done..]. by rewrite IH.
Qed.

Lemma find_backend_path_target_only self c d :
  path c = path d →
  target_backend c = target_backend d →
  _find_registered_backend_endpoint re_search self c
  = _find_registered_backend_endpoint re_search self d.
Proof.
  intros Hpath Htarget. unfold _find_registered_backend_endpoint. rewrite Htarget.
  destruct (dict_getitem (target_backend d) (backends self)) as [entry|e]; simpl; [|done].
  unfold _find_registered_endpoint_for_module. by apply search_endpoints_path_only.
Qed.

(** The context once the candidate backend is noted on it. *)
Lemma noted_path self context backend :
  path (if dict_mem backend (backends self)
        then set_target_backend (Some backend) context else context)
  = path context.
Proof. by destruct (dict_mem backend (backends self)). Qed.

Lemma endpoint_routing_frontend self context p backend rest n h :
  path context = Some p →
  split_path format_path_splits self p = Return (backend :: rest) →
  _find_registered_endpoint re_search self context (frontends self) = Return (n, h) →
  endpoint_routing re_search format_path_splits self context
  = (Return h,
     set_target_frontend (Some n)
       (if dict_mem backend (backends self)
        then set_target_backend (Some backend) context else context)).
Proof.
  intros Hp Hsplit Hfe. unfold endpoint_routing. rewrite Hp, Hsplit.
  rewrite (find_registered_path_only self _ context _ (noted_path self context backend)).
  by rewrite Hfe.
Qed.

Lemma endpoint_routing_micro_service self context p backend rest n h :
  path context = Some p →
  split_path format_path_splits self p = Return (backend :: rest) →
  _find_registered_endpoint re_search self context (frontends self)
  = Raise (UnknownEndpoint (Some p)) →
  _find_registered_endpoint re_search self context (micro_services self) = Return (n, h) →
  endpoint_routing re_search format_path_splits self context
  = (Return h,
     set_target_micro_service (Some n)
       (if dict_mem backend (backends self)
        then set_target_backend (Some backend) context else context)).
Proof.
  intros Hp Hsplit Hfe Hms. unfold endpoint_routing. rewrite Hp, Hsplit.
  rewrite !(find_registered_path_only self _ context _ (noted_path self context backend)).
  by rewrite Hfe, Hms.
Qed.

(** The table the backend step searches: the one filed under the first
    piece of the path, when there is one. *)
Lemma endpoint_routing_backend_step self context p backend rest :
  path context = Some p →
  split_path format_path_splits self p = Return (backend :: rest) →
  _find_registered_endpoint re_search self context (frontends self)
  = Raise (UnknownEndpoint (Some p)) →
  _find_registered_endpoint re_search self context (micro_services self)
  = Raise (UnknownEndpoint (Some p)) →
  endpoint_routing re_search format_path_splits self context
  = match dict_get backend (backends self) with
    | Some entry =>
        match search_endpoints re_search self (endpoints entry) context with
        | Return (Some spec) =>
            if truthy spec
            then (Return spec, set_target_backend (Some backend) context)
            else (Raise (not_bound p), set_target_backend (Some backend) context)
        | Return None => (Raise (not_bound p), set_target_backend (Some backend) context)
        | Raise e => (Raise e, set_target_backend (Some backend) context)
        end
    | None => (Raise (not_bound p), context)
    end.
Proof.
  intros Hp Hsplit Hfe Hms. unfold endpoint_routing. rewrite Hp, Hsplit.
  rewrite !(find_registered_path_only self _ context _ (noted_path self context backend)).
  rewrite Hfe, Hms. unfold dict_mem.
  destruct (dict_get backend (backends self)) as [entry|] eqn:Hget; [|done].
  unfold _find_registered_backend_endpoint, dict_getitem. simpl. rewrite Hget. simpl.
  unfold _find_registered_endpoint_for_module.
  rewrite (search_endpoints_path_only self (endpoints entry)
             (set_target_backend (Some backend) context) context eq_refl).
  destruct (search_endpoints re_search self (endpoints entry) context) as [[spec|]|e];
    [|done..].
  by destruct (truthy spec).
Qed.

End Shape.

(** ** Further properties of the inbound routing *)

Section InboundMore.

Context {Handler : Type} `{!Truthy Handler}.
Variable re_search : string → string → bool.
Variable format_path_splits : list string → option format_error.

Implicit Types (self other : ModuleRouter Handler) (context : Context).
Implicit Types (p regex backend : string) (rest : list string).

(** After a successful split the call ends in one of four ways, each with
    the candidate backend noted on the context. *)
Lemma endpoint_routing_cases self context p backend rest :
  path context = Some p →
  split_path format_path_splits self p = Return (backend :: rest) →
  let noted :=
    if dict_mem backend (backends self)
    then set_target_backend (Some backend) context else context in
  (∃ n h, endpoint_routing re_search format_path_splits self context
          = (Return h, set_target_frontend (Some n) noted))
  ∨ (∃ n h, endpoint_routing re_search format_path_splits self context
            = (Return h, set_target_micro_service (Some n) noted))
  ∨ (∃ h, endpoint_routing re_search format_path_splits self context = (Return h, noted))
  ∨ endpoint_routing re_search format_path_splits self context = (Raise (not_bound p), noted).
Proof.
  intros Hp Hsplit noted.
  destruct (find_registered_cases re_search self context (frontends self) p Hp)
    as [(n & h & Hfe)|Hfe].
  { left. exists n, h. by eapply endpoint_routing_frontend. }
  destruct (find_registered_cases re_search self context (micro_services self) p Hp)
    as [(n & h & Hms)|Hms].
  { right; left. exists n, h. by eapply endpoint_routing_micro_service. }
  right; right.
  rewrite (endpoint_routing_backend_step re_search format_path_splits self context p backend rest
             Hp Hsplit Hfe Hms).
  subst noted. unfold dict_mem.
  destruct (dict_get backend (backends self)) as [entry|]; [|by right].
  destruct (search_endpoints_cases re_search self (endpoints entry) context p Hp)
    as [(pre & regex & spec & post & _ & _ & _ & ->)|[_ ->]]; [|by right].
  destruct (truthy spec); [left; by eexists|by right].
Qed.

(** X1: Routing the context a first call hands back gives the same outcome and
    the same context again. *)
Theorem endpoint_routing_idempotent self context :
  endpoint_routing re_search format_path_splits self (endpoint_routing re_search format_path_splits self context).2
  = endpoint_routing re_search format_path_splits self context.
Proof.
  destruct (path context) as [p|] eqn:Hp.
  2: { assert (endpoint_routing re_search format_path_splits self context
               = (Raise (SATOSABadContextError "Context did not contain any path"),
                  context)) as Hr
         by (unfold endpoint_routing; by rewrite Hp).
       rewrite Hr. simpl. exact Hr. }
  destruct (split_path format_path_splits self p) as [[|backend rest]|e] eqn:Hsplit.
  - assert (endpoint_routing re_search format_path_splits self context
            = (Raise (IndexError "list index out of range"), context)) as Hr
      by (unfold endpoint_routing; by rewrite Hp, Hsplit).
    rewrite Hr. simpl. exact Hr.
  - set (noted := if dict_mem backend (backends self)
                  then set_target_backend (Some backend) context else context).
    destruct (find_registered_cases re_search self context (frontends self) p Hp)
      as [(n & h & Hfe)|Hfe].
    { rewrite (endpoint_routing_frontend re_search format_path_splits self context p backend rest n h
                 Hp Hsplit Hfe). simpl.
      rewrite (endpoint_routing_frontend re_search format_path_splits self _ p backend rest n h).
      - by destruct (dict_mem backend (backends self)).
      - by destruct (dict_mem backend (backends self)).
      - done.
      - rewrite <- Hfe. apply find_registered_path_only.
        by destruct (dict_mem backend (backends self)). }
    destruct (find_registered_cases re_search self context (micro_services self) p Hp)
      as [(n & h & Hms)|Hms].
    { rewrite (endpoint_routing_micro_service re_search format_path_splits self context p backend rest n h
                 Hp Hsplit Hfe Hms). simpl.
      rewrite (endpoint_routing_micro_service re_search format_path_splits self _ p backend rest n h).
      - by destruct (dict_mem backend (backends self)).
      - by destruct (dict_mem backend (backends self)).
      - done.
      - rewrite <- Hfe. apply find_registered_path_only.
        by destruct (dict_mem backend (backends self)).
      - rewrite <- Hms. apply find_registered_path_only.
        by destruct (dict_mem backend (backends self)). }
    pose proof (endpoint_routing_backend_step re_search format_path_splits self context p backend rest
                  Hp Hsplit Hfe Hms) as Hfirst.
    destruct (dict_get backend (backends self)) as [entry|] eqn:Hget.
    + pose proof (endpoint_routing_backend_step re_search format_path_splits self
                    (set_target_backend (Some backend) context) p backend rest
                    Hp Hsplit) as Hsecond.
      rewrite Hget in Hsecond.
      rewrite (search_endpoints_path_only re_search self (endpoints entry)
                 (set_target_backend (Some backend) context) context eq_refl)
        in Hsecond.
      assert (endpoint_routing re_search format_path_splits self (set_target_backend (Some backend) context)
              = endpoint_routing re_search format_path_splits self context) as Hsame.
      { rewrite Hfirst, Hsecond.
        - by destruct (search_endpoints re_search self (endpoints entry) context)
            as [[spec|]|e]; [destruct (truthy spec)|..].
        - rewrite <- Hfe. by apply find_registered_path_only.
        - rewrite <- Hms. by apply find_registered_path_only. }
      rewrite <- Hsame at 2. f_equal.
      rewrite Hfirst.
      by destruct (search_endpoints re_search self (endpoints entry) context)
        as [[spec|]|e]; [destruct (truthy spec)|..].
    + by rewrite Hfirst.
  - assert (endpoint_routing re_search format_path_splits self context = (Raise e, context)) as Hr
      by (unfold endpoint_routing; by rewrite Hp, Hsplit).
    rewrite Hr. simpl. exact Hr.
Qed.

(** X2: The call never changes the path or the state of the context, and when
    it raises it leaves [target_frontend] and [target_micro_service] as they
    were. *)
Theorem endpoint_routing_frame self context :
  path (endpoint_routing re_search format_path_splits self context).2 = path context
  ∧ state (endpoint_routing re_search format_path_splits self context).2 = state context
  ∧ (∀ e, (endpoint_routing re_search format_path_splits self context).1 = Raise e →
       target_frontend (endpoint_routing re_search format_path_splits self context).2
       = target_frontend context
       ∧ target_micro_service (endpoint_routing re_search format_path_splits self context).2
         = target_micro_service context).
Proof.
  destruct (path context) as [p|] eqn:Hp.
  2: { unfold endpoint_routing. rewrite Hp. simpl. by rewrite Hp. }
  destruct (split_path format_path_splits self p) as [[|backend rest]|e] eqn:Hsplit.
  - unfold endpoint_routing. rewrite Hp, Hsplit. simpl. by rewrite Hp.
  - destruct (endpoint_routing_cases self context p backend rest Hp Hsplit)
      as [(n & h & ->)|[(n & h & ->)|[(h & ->)| ->]]]; simpl;
      destruct (dict_mem backend (backends self)); simpl; rewrite ?Hp; done.
  - unfold endpoint_routing. rewrite Hp, Hsplit. simpl. by rewrite Hp.
Qed.

(** X3: Whatever the outcome, a registered first piece of the path ends up as
    [target_backend]; an unregistered one leaves the previous value in place. *)
Theorem endpoint_routing_notes_backend self context p backend rest :
  path context = Some p →
  split_path format_path_splits self p = Return (backend :: rest) →
  target_backend (endpoint_routing re_search format_path_splits self context).2
  = if dict_mem backend (backends self) then Some backend else target_backend context.
Proof.
  intros Hp Hsplit.
  destruct (endpoint_routing_cases self context p backend rest Hp Hsplit)
    as [(n & h & ->)|[(n & h & ->)|[(h & ->)| ->]]]; simpl;
    by destruct (dict_mem backend (backends self)).
Qed.

(** X4: With no context path in the base URL, once the debug call on the
    split is passed the split of the path cannot fail: it is the non-empty
    list of the pieces of the path, and the call raises neither the
    [ValueError] of [path_split.remove] nor the [IndexError] of
    [path_split[0]]. *)
Theorem endpoint_routing_plain_base_url self context p :
  has_context_path self = false →
  path context = Some p →
  format_path_splits (PyStr.split "/" p) = None →
  (∃ backend rest,
     split_path format_path_splits self p = Return (backend :: rest)
     ∧ PyStr.split "/" p = backend :: rest)
  ∧ (endpoint_routing re_search format_path_splits self context).1
    ≠ Raise (ValueError "list.remove(x): x not in list")
  ∧ (endpoint_routing re_search format_path_splits self context).1
    ≠ Raise (IndexError "list index out of range").
Proof.
  intros Hplain Hp Hlog.
  assert (∃ backend rest,
            split_path format_path_splits self p = Return (backend :: rest)
            ∧ PyStr.split "/" p = backend :: rest)
    as (backend & rest & Hsplit & Hpieces).
  { unfold split_path. rewrite Hlog, Hplain.
    pose proof (split_not_nil "/" p) as Hne.
    destruct (PyStr.split "/" p) as [|backend rest]; [done|]. by eexists _, _. }
  split; [by eexists _, _|].
  destruct (endpoint_routing_cases self context p backend rest Hp Hsplit)
    as [(n & h & ->)|[(n & h & ->)|[(h & ->)| ->]]]; done.
Qed.

(** X5: When no frontend pattern matches, the first micro-service in registry
    order with a matching pattern takes the request, whatever the backend
    tables contain. *)
Theorem endpoint_routing_first_matching_micro_service self context p backend rest
    earlier k M later pre regex spec post :
  path context = Some p →
  split_path format_path_splits self p = Return (backend :: rest) →
  no_module_matches re_search self (frontends self) p →
  micro_services self = earlier ++ (k, M) :: later →
  no_module_matches re_search self earlier p →
  endpoints M = pre ++ (regex, spec) :: post →
  no_pattern_matches re_search self pre p →
  pattern_matches re_search self regex p = true →
  truthy spec = true →
  endpoint_routing re_search format_path_splits self context
  = (Return spec,
     set_target_micro_service (Some (name (instance M)))
       (if dict_mem backend (backends self)
        then set_target_backend (Some backend) context else context)).
Proof.
  intros Hp Hsplit Hfe Hms Hearlier HM Hpre Hm Ht.
  apply (endpoint_routing_micro_service re_search format_path_splits self context p backend rest);
    [done|done|by apply find_registered_none|].
  rewrite Hms, (find_registered_skip re_search self context _ _ p Hp Hearlier).
  by apply (find_registered_hit re_search self context k M later pre regex spec post p).
Qed.

(** X6: When neither a frontend nor a micro-service pattern matches and the
    first piece of the path names a backend, the handler of that backend's
    first matching pattern is returned and only [target_backend] is set. *)
Theorem endpoint_routing_backend_handler self context p backend rest entry
    pre regex spec post :
  path context = Some p →
  split_path format_path_splits self p = Return (backend :: rest) →
  no_module_matches re_search self (frontends self) p →
  no_module_matches re_search self (micro_services self) p →
  dict_get backend (backends self) = Some entry →
  endpoints entry = pre ++ (regex, spec) :: post →
  no_pattern_matches re_search self pre p →
  pattern_matches re_search self regex p = true →
  truthy spec = true →
  endpoint_routing re_search format_path_splits self context
  = (Return spec, set_target_backend (Some backend) context).
Proof.
  intros Hp Hsplit Hfe Hms Hget Hentry Hpre Hm Ht.
  rewrite (endpoint_routing_backend_step re_search format_path_splits self context p backend rest Hp Hsplit);
    [|by apply find_registered_none..].
  rewrite Hget, Hentry, (search_endpoints_skip re_search self _ _ context p Hp Hpre).
  rewrite (search_endpoints_hit re_search self _ _ _ context p Hp Hm). by rewrite Ht.
Qed.

(** X7: Only the table of the backend named by the first piece of the path is
    searched: when that backend is unknown or its table has no matching
    pattern, the path is not bound, whatever the other backends register. *)
Theorem endpoint_routing_other_backends_ignored self context p backend rest :
  path context = Some p →
  split_path format_path_splits self p = Return (backend :: rest) →
  no_module_matches re_search self (frontends self) p →
  no_module_matches re_search self (micro_services self) p →
  (∀ entry, dict_get backend (backends self) = Some entry →
            no_pattern_matches re_search self (endpoints entry) p) →
  (endpoint_routing re_search format_path_splits self context).1 = Raise (not_bound p).
Proof.
  intros Hp Hsplit Hfe Hms Hown.
  rewrite (endpoint_routing_backend_step re_search format_path_splits self context p backend rest Hp Hsplit);
    [|by apply find_registered_none..].
  destruct (dict_get backend (backends self)) as [entry|]; [|done].
  by rewrite (search_endpoints_miss re_search self _ context p Hp (Hown entry eq_refl)).
Qed.

(** X8: A module whose first matching pattern carries a handler that Python
    takes as false is passed over as a whole: its later patterns are not
    tried and the search goes on with the next module. *)
Theorem find_registered_false_handler_skips_module {I : Type} `{!Named I} self context p
    k (module : RegistryEntry Handler I) others pre regex spec post :
  path context = Some p →
  endpoints module = pre ++ (regex, spec) :: post →
  no_pattern_matches re_search self pre p →
  pattern_matches re_search self regex p = true →
  truthy spec = false →
  _find_registered_endpoint re_search self context ((k, module) :: others)
  = _find_registered_endpoint re_search self context others.
Proof.
  intros Hp Hentry Hpre Hm Ht. simpl. unfold _find_registered_endpoint_for_module.
  rewrite Hentry, (search_endpoints_skip re_search self _ _ context p Hp Hpre).
  rewrite (search_endpoints_hit re_search self _ _ _ context p Hp Hm). simpl.
  by rewrite Ht.
Qed.

End InboundMore.

(** ** Further properties of the registries and of the continuation entry *)

Section DictLookup.

Context {A V : Type}.
Implicit Types (d : dict V) (k : string) (xs : list A).

Lemma dict_get_set k k' (v : V) d :
  dict_get k (dict_set k' v d) = if decide (k' = k) then Some v else dict_get k d.
Proof.
  induction d as [|[k0 v0] d IH]; simpl.
  - by destruct (decide (k' = k)).
  - destruct (decide (k0 = k')) as [->|Hne]; simpl.
    + by destruct (decide (k' = k)).
    + destruct (decide (k0 = k)) as [->|Hne'].
      * by rewrite decide_False.
      * exact IH.
Qed.

Lemma fold_dict_set_get (key : A → string) (val : A → V) k xs d :
  dict_get k (fold_left (λ d x, dict_set (key x) (val x) d) xs d)
  = match last (filter (λ x, key x = k) xs) with
    | Some x => Some (val x)
    | None => dict_get k d
    end.
Proof.
  revert d. induction xs as [|x xs IH]; intros d; simpl; [done|].
  rewrite IH, dict_get_set. rewrite filter_cons.
  destruct (decide (key x = k)) as [Hk|Hk]; [|done].
  rewrite last_cons. by destruct (last (filter (λ x, key x = k) xs)).
Qed.

(** A comprehension files under each key the value of the last element
    that carries the key. *)
Lemma dict_comprehension_lookup (key : A → string) (val : A → V) k xs :
  dict_get k (dict_comprehension key val xs)
  = val <$> last (filter (λ x, key x = k) xs).
Proof.
  unfold dict_comprehension. rewrite fold_dict_set_get.
  by destruct (last (filter (λ x, key x = k) xs)).
Qed.

End DictLookup.

Section ContinuationMore.

Context {Handler : Type}.

Implicit Types (self : ModuleRouter Handler) (context fresh : Context).
Implicit Types (fes : list (FrontendModule Handler)) (bes : list (BackendModule Handler)).
Implicit Types (mss : option (list (MicroService Handler))) (url : option string).

(** X9: In a router built by [__init__] each registry holds, under a name, the
    last of the supplied instances with that name, together with the
    endpoints that instance registers; frontends are handed the names of all
    backends in the order supplied. *)
Theorem init_registry_lookup url fes bes mss self k :
  __init__ url fes bes mss = Return self →
  dict_get k (frontends self)
  = (λ i, {| instance := i;
             endpoints := frontend_register_endpoints i (backend_name <$> bes) |})
    <$> last (filter (λ i, frontend_name i = k) fes)
  ∧ dict_get k (backends self)
    = (λ i, {| instance := i; endpoints := backend_register_endpoints i |})
      <$> last (filter (λ i, backend_name i = k) bes)
  ∧ dict_get k (micro_services self)
    = (λ i, {| instance := i; endpoints := micro_service_register_endpoints i |})
      <$> last (filter (λ i, micro_service_name i = k) (default [] mss)).
Proof.
  unfold __init__. destruct url as [[|c u]|]; [done| |done].
  destruct fes as [|fe fes]; [done|]. destruct bes as [|be bes]; [done|].
  intros [= <-]. cbn [frontends backends micro_services].
  split_and!.
  - apply (dict_comprehension_lookup name).
  - apply (dict_comprehension_lookup name).
  - destruct mss as [[|ms l]|]; [done| |done].
    apply (dict_comprehension_lookup name).
Qed.

(** X10: [backend_routing] touches nothing but the [ROUTER] entry of the state. *)
Theorem backend_routing_frame self context :
  path (backend_routing self context).2 = path context
  ∧ target_backend (backend_routing self context).2 = target_backend context
  ∧ target_frontend (backend_routing self context).2 = target_frontend context
  ∧ target_micro_service (backend_routing self context).2 = target_micro_service context
  ∧ ∀ key, key ≠ STATE_KEY →
      state (backend_routing self context).2 !! key = state context !! key.
Proof.
  unfold backend_routing.
  destruct (dict_getitem (target_backend context) (backends self)) as [entry|e];
    simpl; split_and!; try done.
  intros key Hkey. by apply lookup_insert_ne.
Qed.


(** X12: When the [ROUTER] entry does not name a registered frontend,
    [frontend_routing] raises with [target_frontend] already overwritten by
    the entry. *)
Theorem frontend_routing_unknown_overwrites_target self context v :
  state context !! STATE_KEY = Some v →
  (∀ f, v = Some f → dict_mem f (frontends self) = false) →
  frontend_routing self context = (Raise (KeyError v), set_target_frontend v context).
Proof.
  intros Hv Hunknown. unfold frontend_routing. rewrite Hv. simpl.
  destruct v as [f|]; [|done].
  by rewrite (dict_getitem_not_mem _ _ (Hunknown f eq_refl)).
Qed.

(** X13: [frontend_routing] leaves the state as it is, so the entry can be read
    again: a second call on the returned context repeats the first. *)
Theorem frontend_routing_idempotent self context :
  state (frontend_routing self context).2 = state context
  ∧ frontend_routing self (frontend_routing self context).2
    = frontend_routing self context.
Proof.
  unfold frontend_routing.
  destruct (state context !! STATE_KEY) as [target|] eqn:Hkey; simpl.
  - destruct (dict_getitem target (frontends self)) as [entry|e] eqn:Hget;
      simpl; rewrite Hkey; simpl; by rewrite Hget.
  - by rewrite Hkey.
Qed.

End ContinuationMore.

(** ** Prefixed paths under a base URL with a context path *)

Section Prefixed.

Context {Handler : Type} `{!Truthy Handler}.
Variable re_search : string → string → bool.
Variable format_path_splits : list string → option format_error.

Implicit Types (self plain : ModuleRouter Handler) (context c d : Context).
Implicit Types (p regex s : string).

Lemma split_after_piece (w s : string) :
  PyStr.contains "/" w = false →
  PyStr.split "/" (w +:+ String "/" s) = w :: PyStr.split "/" s.
Proof.
  induction w as [|a w IH]; [done|].
  rewrite contains_char_cons. intros [Ha Hw]%orb_false_elim.
  simpl. rewrite Ascii.eqb_sym, Ha. by rewrite (IH Hw).
Qed.

Lemma split_path_prefixed self p :
  has_context_path self = true →
  format_path_splits (base_url_context self :: PyStr.split "/" p) = None →
  split_path format_path_splits self (prefixed_path self p) = Return (PyStr.split "/" p).
Proof.
  intros Hctx Hlog. unfold split_path, prefixed_path.
  rewrite (split_after_piece _ _ (base_url_context_sep_free self)).
  rewrite Hlog, Hctx. simpl. by rewrite decide_True.
Qed.

Section Agreement.

Variables (self plain : ModuleRouter Handler) (p : string) (c d : Context).
Hypothesis Hctx : has_context_path self = true.
Hypothesis Hplain : has_context_path plain = false.
Hypothesis Hsegment : base_url_context self ≠ EmptyString.
Hypothesis Honce : PyStr.contains (base_url_context self) (String "/" p) = false.
Hypothesis Hc : path c = Some (prefixed_path self p).
Hypothesis Hd : path d = Some p.

Lemma pattern_matches_prefixed regex :
  re_search regex (prefixed_path self p) = false →
  pattern_matches re_search self regex (prefixed_path self p)
  = pattern_matches re_search plain regex p.
Proof using Hctx Hplain Hsegment Honce.
  intros Hraw. unfold pattern_matches. rewrite Hraw, Hctx, Hplain. simpl.
  rewrite andb_false_r. unfold prefixed_path.
  by rewrite (remove_context_prefixed self p Hsegment Honce).
Qed.

Lemma search_endpoints_prefixed (table : EndpointTable Handler) :
  Forall (λ e, re_search e.1 (prefixed_path self p) = false) table →
  search_endpoints re_search self table c = search_endpoints re_search plain table d.
Proof using All.
  intros Hraw. induction Hraw as [|[regex spec] table Hx _ IH]; simpl; [done|].
  rewrite Hc, Hd, (pattern_matches_prefixed regex Hx). by rewrite IH.
Qed.

Lemma find_registered_prefixed {I : Type} `{!Named I}
    (modules : dict (RegistryEntry Handler I)) :
  no_raw_match re_search modules (prefixed_path self p) →
  (∃ n h, _find_registered_endpoint re_search self c modules = Return (n, h)
          ∧ _find_registered_endpoint re_search plain d modules = Return (n, h))
  ∨ (_find_registered_endpoint re_search self c modules
     = Raise (UnknownEndpoint (Some (prefixed_path self p)))
     ∧ _find_registered_endpoint re_search plain d modules
       = Raise (UnknownEndpoint (Some p))).
Proof using All.
  intros Hraw. induction Hraw as [|[k module] modules Hx _ IH]; simpl.
  - right. by rewrite Hc, Hd.
  - unfold _find_registered_endpoint_for_module. simpl in Hx.
    rewrite (search_endpoints_prefixed _ Hx).
    destruct (search_endpoints_cases re_search plain (endpoints module) d p Hd)
      as [(pre & regex & spec & post & _ & _ & _ & ->)|[_ ->]]; simpl; [|done].
    destruct (truthy spec); [left; by eexists _, _|done].
Qed.

End Agreement.

(** X14: Under a base URL with a non-empty context segment, a path made of the
    segment, a slash and a remainder free of the segment is routed as the
    remainder is under a base URL without context path and the same
    registries, provided the debug call on either split is passed and no
    registered pattern matches the prefixed path as it stands: a handler
    returned for the remainder is returned for the prefixed path with the
    same targets, and the no-bound-endpoint error for the remainder becomes
    the one for the prefixed path. *)
Theorem prefixed_path_routes_like_plain self plain context p :
  has_context_path self = true →
  has_context_path plain = false →
  frontends plain = frontends self →
  micro_services plain = micro_services self →
  backends plain = backends self →
  base_url_context self ≠ EmptyString →
  PyStr.contains (base_url_context self) (String "/" p) = false →
  format_path_splits (PyStr.split "/" p) = None →
  format_path_splits (base_url_context self :: PyStr.split "/" p) = None →
  no_raw_match re_search (frontends self) (prefixed_path self p) →
  no_raw_match re_search (micro_services self) (prefixed_path self p) →
  no_raw_match re_search (backends self) (prefixed_path self p) →
  (∀ h routed,
     endpoint_routing re_search format_path_splits plain (set_path (Some p) context)
     = (Return h, routed) →
     endpoint_routing re_search format_path_splits self
       (set_path (Some (prefixed_path self p)) context)
     = (Return h, set_path (Some (prefixed_path self p)) routed))
  ∧ (∀ routed,
       endpoint_routing re_search format_path_splits plain (set_path (Some p) context)
       = (Raise (not_bound p), routed) →
       endpoint_routing re_search format_path_splits self
         (set_path (Some (prefixed_path self p)) context)
       = (Raise (not_bound (prefixed_path self p)),
          set_path (Some (prefixed_path self p)) routed)).
Proof.
  intros Hctx Hplain Hfes Hmss Hbes Hsegment Honce Hlog Hlog' Hrfe Hrms Hrbe.
  set (c := set_path (Some (prefixed_path self p)) context).
  set (d := set_path (Some p) context).
  assert (match endpoint_routing re_search format_path_splits plain d with
          | (Return h, routed) =>
              endpoint_routing re_search format_path_splits self c
              = (Return h, set_path (Some (prefixed_path self p)) routed)
          | (Raise _, routed) =>
              endpoint_routing re_search format_path_splits self c
              = (Raise (not_bound (prefixed_path self p)),
                 set_path (Some (prefixed_path self p)) routed)
          end) as Hlike.
  { assert (path c = Some (prefixed_path self p)) as Hc by done.
    assert (path d = Some p) as Hd by done.
    pose proof (split_path_prefixed self p Hctx Hlog') as Hsplit.
    assert (split_path format_path_splits plain p = Return (PyStr.split "/" p))
      as Hsplit' by (unfold split_path; by rewrite Hlog, Hplain).
    pose proof (split_not_nil "/" p) as Hne.
    destruct (PyStr.split "/" p) as [|backend rest]; [done|]. clear Hne.
    destruct (find_registered_prefixed self plain p c d Hctx Hplain Hsegment Honce
                Hc Hd (frontends self) Hrfe) as [(n & h & Hfe & Hfe')|[Hfe Hfe']].
    { rewrite <- Hfes in Hfe'.
      rewrite (endpoint_routing_frontend re_search format_path_splits plain d p
                 backend rest n h Hd Hsplit' Hfe').
      rewrite (endpoint_routing_frontend re_search format_path_splits self c _
                 backend rest n h Hc Hsplit Hfe).
      rewrite Hbes. by destruct (dict_mem backend (backends self)). }
    destruct (find_registered_prefixed self plain p c d Hctx Hplain Hsegment Honce
                Hc Hd (micro_services self) Hrms) as [(n & h & Hms & Hms')|[Hms Hms']].
    { rewrite <- Hfes in Hfe'. rewrite <- Hmss in Hms'.
      rewrite (endpoint_routing_micro_service re_search format_path_splits plain d p
                 backend rest n h Hd Hsplit' Hfe' Hms').
      rewrite (endpoint_routing_micro_service re_search format_path_splits self c _
                 backend rest n h Hc Hsplit Hfe Hms).
      rewrite Hbes. by destruct (dict_mem backend (backends self)). }
    rewrite <- Hfes in Hfe'. rewrite <- Hmss in Hms'.
    rewrite (endpoint_routing_backend_step re_search format_path_splits plain d p
               backend rest Hd Hsplit' Hfe' Hms').
    rewrite (endpoint_routing_backend_step re_search format_path_splits self c _
               backend rest Hc Hsplit Hfe Hms).
    rewrite Hbes.
    destruct (dict_get backend (backends self)) as [entry|] eqn:Hget; [|done].
    assert (Forall (λ e, re_search e.1 (prefixed_path self p) = false) (endpoints entry))
      as Hentry.
    { apply dict_get_elem in Hget. unfold no_raw_match in Hrbe.
      rewrite Forall_forall in Hrbe. exact (Hrbe _ Hget). }
    rewrite (search_endpoints_prefixed self plain p c d Hctx Hplain Hsegment Honce
               Hc Hd _ Hentry).
    destruct (search_endpoints_cases re_search plain (endpoints entry) d p Hd)
      as [(pre & regex & spec & post & _ & _ & _ & ->)|[_ ->]]; [|done].
    by destruct (truthy spec). }
  destruct (endpoint_routing re_search format_path_splits plain d) as [[h|e] routed].
  - split; [by intros h' routed' [= <- <-]|by intros routed' [=]].
  - split; [by intros h' routed' [=]|by intros routed' [= _ <-]].
Qed.

End Prefixed.

(** ** The deployment, routed *)

Example plain_router_built :
  __init__ (Some "https://example.com") [saml_sp] [idp1] None = Return plain_router.
Proof. reflexivity. Qed.

Example ctx_router_built :
  __init__ (Some "https://example.com/ctx") [saml_sp] [idp1] None = Return ctx_router.
Proof. reflexivity. Qed.

Example routes_metadata_to_frontend :
  endpoint_routing PyRe.search PyFormat.path_splits_error plain_router (request "metadata")
  = (Return ("metadata", "redirect"),
     set_target_frontend (Some "saml-sp") (request "metadata")).
Proof. reflexivity. Qed.

Example routes_acs_to_backend :
  endpoint_routing PyRe.search PyFormat.path_splits_error plain_router (request "idp1/acs")
  = (Return ("authn_response", "post"),
     set_target_backend (Some "idp1") (request "idp1/acs")).
Proof. reflexivity. Qed.

Example unknown_backend_path_not_bound :
  endpoint_routing PyRe.search PyFormat.path_splits_error plain_router (request "idp1/unknown")
  = (Raise (SATOSANoBoundEndpointError "'idp1/unknown' not bound to any function"),
     set_target_backend (Some "idp1") (request "idp1/unknown")).
Proof. reflexivity. Qed.

Example prefixed_acs_to_backend :
  endpoint_routing PyRe.search PyFormat.path_splits_error ctx_router (request "ctx/idp1/acs")
  = (Return ("authn_response", "post"),
     set_target_backend (Some "idp1") (request "ctx/idp1/acs")).
Proof. reflexivity. Qed.

(** The removal of the context is not tied to the front of the path. *)
Example remove_context_inner_occurrence : remove_context ctx_router "a/ctx" = "a".
Proof. reflexivity. Qed.

(** C1 (as the code behaves): with the context path [ctx] in the base URL
    and a frontend pattern matching the logical path [metadata], the path
    [ctx/metadata] is routed to the frontend handler while the path
    [metadata] stops at [path_split.remove] with a [ValueError]. *)
Theorem prefixed_and_unprefixed_paths_diverge :
  has_context_path ctx_router = true
  ∧ base_url_context ctx_router = "ctx"
  ∧ PyRe.search "^metadata$" "metadata" = true
  ∧ endpoint_routing PyRe.search PyFormat.path_splits_error ctx_router (request "ctx/metadata")
    = (Return ("metadata", "redirect"),
       set_target_frontend (Some "saml-sp") (request "ctx/metadata"))
  ∧ endpoint_routing PyRe.search PyFormat.path_splits_error ctx_router (request "metadata")
    = (Raise (ValueError "list.remove(x): x not in list"), request "metadata").
Proof.
  split_and!; [reflexivity..|].
  apply (endpoint_routing_unprefixed_raises _ _ _ _ "metadata"); [reflexivity..|].
  simpl. by intros [=]%list_elem_of_singleton.
Qed.

(** C2 at the failing input. *)
Lemma endpoint_routing_context_only_index_error_witness :
  endpoint_routing PyRe.search PyFormat.path_splits_error ctx_router (request "ctx")
  = (Raise (IndexError "list index out of range"), request "ctx").
Proof.
  apply (endpoint_routing_context_only_index_error PyRe.search PyFormat.path_splits_error ctx_router (request "ctx"));
    reflexivity.
Defined.

(** C3: the second pattern matches the raw path [ctx/metadata], yet the code
    returns the handler of the first pattern, reached through the removal of
    the context. *)
Lemma per_pattern_retry_preempts_raw_match :
  ¬ searches_raw_table_first PyRe.search ctx_router legacy_entry (request "ctx/metadata").
Proof.
  intros Hclaim. specialize (Hclaim "ctx/metadata" eq_refl). discriminate Hclaim.
Qed.

Lemma find_for_module_two_pass_per_pattern_witness :
  _find_registered_endpoint_for_module PyRe.search ctx_router legacy_entry
    (request "ctx/metadata")
  = Return (Some ("metadata", "redirect")).
Proof.
  apply (find_for_module_two_pass_per_pattern PyRe.search ctx_router legacy_entry
           (request "ctx/metadata") "ctx/metadata" eq_refl).
  exists [], "^metadata$", [("^ctx/metadata$", ("legacy_metadata", "redirect"))].
  split; [reflexivity|]. split; [constructor|]. right.
  split; [reflexivity|]. split; reflexivity.
Defined.

(** C4: both frontends register [^metadata$]; the request goes to [fe1], so
    it is not routed to [fe2] although [fe2]'s pattern matches. *)
Lemma second_matching_frontend_not_routed :
  ¬ routes_to_every_matching_frontend PyRe.search PyFormat.path_splits_error twin_router (request "metadata").
Proof.
  intros Hclaim.
  destruct (Hclaim "fe2" fe2_entry "^metadata$" ("fe2_metadata", "redirect") "metadata")
    as (h & context' & Hrouted & Htarget & _).
  - right. left.
  - left.
  - reflexivity.
  - reflexivity.
  - assert (endpoint_routing PyRe.search PyFormat.path_splits_error twin_router (request "metadata")
            = (Return ("fe1_metadata", "redirect"),
               set_target_frontend (Some "fe1") (request "metadata"))) as Hcode
      by reflexivity.
    rewrite Hcode in Hrouted. injection Hrouted as _ <-. discriminate Htarget.
Qed.

Lemma endpoint_routing_first_matching_frontend_witness :
  endpoint_routing PyRe.search PyFormat.path_splits_error contested_router (request "idp1/acs")
  = (Return ("handle_authn", "post"),
     set_target_frontend (Some "greedy-sp")
       (set_target_backend (Some "idp1") (request "idp1/acs"))).
Proof.
  exact (endpoint_routing_first_matching_frontend PyRe.search PyFormat.path_splits_error contested_router
           (request "idp1/acs") "idp1/acs" "idp1" ["acs"]
           [] "greedy-sp" greedy_entry [] [] "^idp1/acs$" ("handle_authn", "post") []
           eq_refl eq_refl eq_refl (Forall_nil_2 _) eq_refl (Forall_nil_2 _)
           eq_refl eq_refl).
Defined.

(** C5 on the deployment. *)
Lemma backend_frontend_round_trip_witness :
  ∃ bentry fentry context',
    dict_get "idp1" (backends plain_router) = Some bentry
    ∧ dict_get "saml-sp" (frontends plain_router) = Some fentry
    ∧ backend_routing plain_router (outbound (Some "idp1") (Some "saml-sp"))
      = (Return (instance bentry), context')
    ∧ state context' !! STATE_KEY = Some (Some "saml-sp")
    ∧ (∀ fresh, state fresh = state context' →
         frontend_routing plain_router fresh
         = (Return (instance fentry), set_target_frontend (Some "saml-sp") fresh))
    ∧ instance fentry ∈ [saml_sp]
    ∧ name (instance fentry) = "saml-sp".
Proof.
  apply (backend_frontend_round_trip (Some "https://example.com") [saml_sp] [idp1] None
           plain_router (outbound (Some "idp1") (Some "saml-sp")) "saml-sp" "idp1");
    reflexivity.
Defined.

(** C6 on a context without a path. *)
Lemma endpoint_routing_bad_context_witness :
  endpoint_routing PyRe.search PyFormat.path_splits_error ctx_router (outbound None None)
  = (Raise (SATOSABadContextError "Context did not contain any path"),
     outbound None None).
Proof.
  apply (endpoint_routing_bad_context_iff PyRe.search PyFormat.path_splits_error plain_router (outbound None None)).
  reflexivity.
Defined.

(** C7 (as the code behaves): no frontend, micro-service or backend pattern
    matches [favicon.ico], and with the context path [ctx] in the base URL
    the call raises [ValueError] from [path_split.remove], not the
    no-bound-endpoint error. *)
Theorem unmatched_unprefixed_path_value_error :
  no_module_matches PyRe.search ctx_router (frontends ctx_router) "favicon.ico"
  ∧ no_module_matches PyRe.search ctx_router (micro_services ctx_router) "favicon.ico"
  ∧ no_module_matches PyRe.search ctx_router (backends ctx_router) "favicon.ico"
  ∧ endpoint_routing PyRe.search PyFormat.path_splits_error ctx_router (request "favicon.ico")
    = (Raise (ValueError "list.remove(x): x not in list"), request "favicon.ico").
Proof.
  split_and!; [by repeat constructor..|].
  apply (endpoint_routing_unprefixed_raises _ _ _ _ "favicon.ico"); [reflexivity..|].
  simpl. by intros [=]%list_elem_of_singleton.
Qed.


(** C9 on a context whose state has no [ROUTER] entry. *)
Lemma frontend_routing_lookup_failure_witness :
  (∃ k, (frontend_routing plain_router (request "idp1/acs")).1 = Raise (KeyError k))
  ∧ (∀ frontend,
       (frontend_routing plain_router (request "idp1/acs")).1 ≠ Return frontend).
Proof.
  apply (frontend_routing_lookup_failure plain_router (request "idp1/acs")).
  left. reflexivity.
Defined.

(** C10 on a context aimed at a backend that is not registered. *)
Lemma backend_routing_unknown_backend_witness :
  backend_routing plain_router (outbound (Some "idp9") (Some "saml-sp"))
  = (Raise (KeyError (Some "idp9")), outbound (Some "idp9") (Some "saml-sp"))
  ∧ state (backend_routing plain_router (outbound (Some "idp9") (Some "saml-sp"))).2
      !! STATE_KEY
    = state (outbound (Some "idp9") (Some "saml-sp")) !! STATE_KEY.
Proof.
  apply (backend_routing_unknown_backend plain_router
           (outbound (Some "idp9") (Some "saml-sp"))).
  intros b [= <-]. reflexivity.
Defined.

(** ** The endpoint table and the name-id conversions of the SAML2 backend *)

Section SamlFacts.

Variable url_path : string → result string.

Implicit Types (self : Saml2.SamlBackend) (s t : string).

Lemma append_assoc s t u : (s +:+ t) +:+ u = s +:+ (t +:+ u).
Proof.
  induction s as [|c s IH]; [done|].
  change ((String c s +:+ t) +:+ u) with (String c ((s +:+ t) +:+ u)).
  change (String c s +:+ (t +:+ u)) with (String c (s +:+ (t +:+ u))).
  by rewrite IH.
Qed.

Lemma anchored_caret_dollar s : Saml2.anchored ("^" +:+ s +:+ "$").
Proof. by exists s. Qed.

Lemma anchored_loose s : Saml2.anchored ("^" +:+ s +:+ "?(.*)$").
Proof.
  exists (s +:+ "?(.*)"). by rewrite (append_assoc s "?(.*)" "$").
Qed.

Lemma acs_entries_returns acs :
  (∃ url_map, Saml2.acs_entries url_path acs = Return url_map)
  ↔ Saml2.all_parse url_path acs.*1.
Proof.
  unfold Saml2.all_parse. induction acs as [|[endp binding] acs IH]; simpl.
  - split; [constructor|by eexists].
  - rewrite Forall_cons. destruct (url_path endp) as [parsed|e]; simpl.
    + destruct (Saml2.acs_entries url_path acs) as [url_map|e]; simpl.
      * split; [|by eexists]. intros _. split; [by eexists|]. apply IH. by eexists.
      * split; [by intros [? ?]|]. intros [_ [? ?]%IH]. done.
    + split; [by intros [? ?]|]. by intros [[? ?] _].
Qed.

Lemma disco_entries_returns disco :
  (∃ url_map, Saml2.disco_entries url_path disco = Return url_map)
  ↔ Saml2.all_parse url_path disco.*1.
Proof.
  unfold Saml2.all_parse. induction disco as [|[endp binding] disco IH]; simpl.
  - split; [constructor|by eexists].
  - rewrite Forall_cons. destruct (url_path endp) as [parsed|e]; simpl.
    + destruct (Saml2.disco_entries url_path disco) as [url_map|e]; simpl.
      * split; [|by eexists]. intros _. split; [by eexists|]. apply IH. by eexists.
      * split; [by intros [? ?]|]. intros [_ [? ?]%IH]. done.
    + split; [by intros [? ?]|]. by intros [[? ?] _].
Qed.

Lemma metadata_entries_returns self :
  (∃ url_map, Saml2.metadata_entries url_path self = Return url_map)
  ↔ Saml2.all_parse url_path (option_list (Saml2.publish_metadata self)).
Proof.
  unfold Saml2.all_parse, Saml2.metadata_entries.
  destruct (Saml2.publish_metadata self) as [url|]; simpl.
  - rewrite Forall_singleton. destruct (url_path url) as [parsed|e]; simpl.
    + split; by eexists.
    + split; by intros [? ?].
  - split; [constructor|by eexists].
Qed.

(** X15: [register_endpoints] returns a table exactly when the assertion
    consumer service entry is present, every URL it parses is well formed,
    and, if a discovery service is set, the discovery response entry is
    present; without a discovery service that entry is not read. A missing
    assertion consumer service entry raises its [KeyError] before any URL is
    parsed, and a missing discovery response entry raises its [KeyError]
    once the other URLs have parsed. *)
Theorem register_endpoints_key_errors self :
  ((∃ url_map, Saml2.register_endpoints url_path self = Return url_map)
   ↔ ∃ acs,
       dict_get "assertion_consumer_service" (Saml2.sp_endpoints self) = Some acs
       ∧ Saml2.all_parse url_path acs.*1
       ∧ Saml2.all_parse url_path (option_list (Saml2.publish_metadata self))
       ∧ (Saml2.discosrv_set self = true →
          ∃ disco,
            dict_get "discovery_response" (Saml2.sp_endpoints self) = Some disco
            ∧ Saml2.all_parse url_path disco.*1))
  ∧ (dict_get "assertion_consumer_service" (Saml2.sp_endpoints self) = None →
     Saml2.register_endpoints url_path self
     = Raise (KeyError (Some "assertion_consumer_service")))
  ∧ (∀ acs,
       dict_get "assertion_consumer_service" (Saml2.sp_endpoints self) = Some acs →
       Saml2.all_parse url_path acs.*1 →
       Saml2.all_parse url_path (option_list (Saml2.publish_metadata self)) →
       Saml2.discosrv_set self = true →
       dict_get "discovery_response" (Saml2.sp_endpoints self) = None →
       Saml2.register_endpoints url_path self
       = Raise (KeyError (Some "discovery_response"))).
Proof.
  unfold Saml2.register_endpoints, dict_getitem. split_and!.
  - destruct (dict_get "assertion_consumer_service" (Saml2.sp_endpoints self))
      as [acs|]; simpl.
    2: { split; [by intros [? ?]|by intros (? & ? & _)]. }
    pose proof (acs_entries_returns acs) as Hacs.
    destruct (Saml2.acs_entries url_path acs) as [from_acs|e]; simpl.
    2: { split; [by intros [? ?]|].
         intros (acs' & [= <-] & [? ?]%Hacs & _). done. }
    pose proof (metadata_entries_returns self) as Hmeta.
    destruct (Saml2.metadata_entries url_path self) as [from_metadata|e]; simpl.
    2: { split; [by intros [? ?]|].
         intros (acs' & _ & _ & [? ?]%Hmeta & _). done. }
    destruct (Saml2.discosrv_set self); simpl.
    2: { split; [|by eexists]. intros _. exists acs.
         split_and!; [done|apply Hacs; by eexists|apply Hmeta; by eexists|done]. }
    destruct (dict_get "discovery_response" (Saml2.sp_endpoints self))
      as [disco|]; simpl.
    2: { split; [by intros [? ?]|].
         intros (acs' & _ & _ & _ & Hdisco). by destruct (Hdisco eq_refl) as (? & ? & _). }
    pose proof (disco_entries_returns disco) as Hdisco.
    destruct (Saml2.disco_entries url_path disco) as [from_disco|e]; simpl.
    + split; [|by eexists]. intros _. exists acs.
      split_and!; [done|apply Hacs; by eexists|apply Hmeta; by eexists|].
      intros _. exists disco. split; [done|]. apply Hdisco. by eexists.
    + split; [by intros [? ?]|].
      intros (acs' & _ & _ & _ & Hd).
      destruct (Hd eq_refl) as (disco' & [= <-] & [? ?]%Hdisco). done.
  - by intros ->.
  - intros acs Hacs Hurls Hmeta Hset Hdisco. rewrite Hacs. simpl.
    destruct (proj2 (acs_entries_returns acs) Hurls) as [from_acs ->]. simpl.
    destruct (proj2 (metadata_entries_returns self) Hmeta) as [from_metadata ->].
    simpl. by rewrite Hset, Hdisco.
Qed.

Lemma acs_entries_anchored acs url_map :
  Saml2.acs_entries url_path acs = Return url_map →
  Forall (λ entry, Saml2.anchored entry.1) url_map.
Proof.
  revert url_map. induction acs as [|[endp binding] acs IH]; intros url_map; simpl.
  - by intros [= <-].
  - destruct (url_path endp) as [parsed|e]; simpl; [|done].
    destruct (Saml2.acs_entries url_path acs) as [rest|e]; simpl; [|done].
    intros [= <-]. repeat constructor; simpl;
      [apply anchored_loose|apply anchored_caret_dollar|by apply IH].
Qed.

Lemma disco_entries_anchored disco url_map :
  Saml2.disco_entries url_path disco = Return url_map →
  Forall (λ entry, Saml2.anchored entry.1) url_map.
Proof.
  revert url_map. induction disco as [|[endp binding] disco IH]; intros url_map; simpl.
  - by intros [= <-].
  - destruct (url_path endp) as [parsed|e]; simpl; [|done].
    destruct (Saml2.disco_entries url_path disco) as [rest|e]; simpl; [|done].
    intros [= <-]. constructor; simpl; [apply anchored_caret_dollar|by apply IH].
Qed.

(** X16: Every pattern [register_endpoints] returns starts with [^] and ends with
    [$]. *)
Theorem register_endpoints_anchored self url_map :
  Saml2.register_endpoints url_path self = Return url_map →
  Forall (λ entry, Saml2.anchored entry.1) url_map.
Proof.
  unfold Saml2.register_endpoints.
  destruct (dict_getitem (Some "assertion_consumer_service") (Saml2.sp_endpoints self))
    as [acs|e]; simpl; [|done].
  destruct (Saml2.acs_entries url_path acs) as [from_acs|e] eqn:Hacs; simpl; [|done].
  destruct (Saml2.metadata_entries url_path self) as [from_metadata|e] eqn:Hmeta;
    simpl; [|done].
  assert (Forall (λ entry : string * Saml2.Handler, Saml2.anchored entry.1)
            (from_acs ++ from_metadata)) as Hfirst.
  { apply Forall_app. split; [by eapply acs_entries_anchored|].
    unfold Saml2.metadata_entries in Hmeta.
    destruct (Saml2.publish_metadata self) as [url|]; [|by injection Hmeta as <-].
    destruct (url_path url) as [parsed|e]; simpl in Hmeta; [|done].
    injection Hmeta as <-. repeat constructor. apply anchored_caret_dollar. }
  destruct (Saml2.discosrv_set self); [|by intros [= <-]].
  destruct (dict_get "discovery_response" (Saml2.sp_endpoints self))
    as [disco|]; simpl; [|done].
  destruct (Saml2.disco_entries url_path disco) as [from_disco|e] eqn:Hdisco;
    simpl; [|done].
  intros [= <-]. apply Forall_app. split; [done|]. by eapply disco_entries_anchored.
Qed.

End SamlFacts.

Section NameIdFacts.

Context {UserIdHashType : Type} `{!EqDecision UserIdHashType}.
Variables (transient persistent : UserIdHashType).
Variables (TRANSIENT PERSISTENT : string).

(** X17: With distinct format constants and distinct enumeration members the two
    conversions undo each other on the transient and persistent values, and
    send every other value, [None] included, to [None]. *)
Theorem name_id_round_trip (t : option UserIdHashType) (f : option string) :
  TRANSIENT ≠ PERSISTENT →
  transient ≠ persistent →
  Saml2.name_format_to_hash_type transient persistent TRANSIENT PERSISTENT
    (Saml2.policy_format
       (Saml2.create_name_id_policy transient persistent TRANSIENT PERSISTENT t))
  = (if decide (t = Some transient ∨ t = Some persistent) then t else None)
  ∧ Saml2.policy_format
      (Saml2.create_name_id_policy transient persistent TRANSIENT PERSISTENT
         (Saml2.name_format_to_hash_type transient persistent TRANSIENT PERSISTENT f))
    = (if decide (f = Some TRANSIENT ∨ f = Some PERSISTENT) then f else None).
Proof.
  intros Hformats Hmembers.
  unfold Saml2.name_format_to_hash_type, Saml2.create_name_id_policy. simpl. split.
  - repeat case_decide; intuition congruence.
  - repeat case_decide; intuition congruence.
Qed.

End NameIdFacts.

(** ** The further properties on the deployment *)

Example saml_idp1_table :
  Saml2.register_endpoints (λ u, Return u) saml_idp1
  = Return
      [("^idp1/acs/post?(.*)$",
        (Saml2.authn_response, "urn:oasis:names:tc:SAML:2.0:bindings:HTTP-POST"));
       ("^idp1/acs/post$",
        (Saml2.authn_response, "urn:oasis:names:tc:SAML:2.0:bindings:HTTP-POST"));
       ("^idp1/metadata$", (Saml2._metadata, ""));
       ("^idp1/disco$",
        (Saml2.disco_response,
         "urn:oasis:names:tc:SAML:profiles:SSO:idp-discovery-protocol"))].
Proof. reflexivity. Qed.

Example saml_missing_disco_endpoints :
  Saml2.register_endpoints (λ u, Return u) saml_no_disco_endpoints
  = Raise (KeyError (Some "discovery_response")).
Proof. reflexivity. Qed.

Example log_line_missing_key :
  PyFormat.path_splits_error ["idp1"; "{x}"] = Some (FormatKeyError "x").
Proof. reflexivity. Qed.

Example log_line_single_brace :
  PyFormat.path_splits_error ["}"]
  = Some (FormatValueError "Single '}' encountered in format string").
Proof. reflexivity. Qed.

Example log_line_positional_field :
  PyFormat.path_splits_error ["{}"] = Some (FormatIndexError EmptyString).
Proof. reflexivity. Qed.

Example log_line_escaped_braces : PyFormat.path_splits_error ["{{}}"] = None.
Proof. reflexivity. Qed.

(** A path with a replacement field stops the routing at the debug call:
    [idp1] is not noted and no table is searched. *)
Lemma endpoint_routing_debug_call_raises_witness :
  endpoint_routing PyRe.search PyFormat.path_splits_error plain_router
    (request "idp1/{x}")
  = (Raise (KeyError (Some "x")), request "idp1/{x}").
Proof.
  exact (endpoint_routing_debug_call_raises PyRe.search PyFormat.path_splits_error
           plain_router (request "idp1/{x}") "idp1/{x}" (FormatKeyError "x")
           eq_refl eq_refl).
Defined.

(** A URL that [urlparse] refuses stops the registration. *)
Example saml_malformed_url :
  Saml2.register_endpoints (λ u, Raise (ValueError "Invalid IPv6 URL")) saml_idp1
  = Raise (ValueError "Invalid IPv6 URL").
Proof. reflexivity. Qed.

(** A frontend takes [idp1/acs], and [idp1] is noted as the backend all the
    same. *)
Lemma endpoint_routing_notes_backend_witness :
  target_backend
    (endpoint_routing PyRe.search PyFormat.path_splits_error contested_router (request "idp1/acs")).2
  = Some "idp1".
Proof.
  exact (endpoint_routing_notes_backend PyRe.search PyFormat.path_splits_error contested_router
           (request "idp1/acs") "idp1/acs" "idp1" ["acs"] eq_refl eq_refl).
Defined.

Lemma endpoint_routing_plain_base_url_witness :
  (∃ backend rest,
     split_path PyFormat.path_splits_error plain_router "nothing/here"
     = Return (backend :: rest)
     ∧ PyStr.split "/" "nothing/here" = backend :: rest)
  ∧ (endpoint_routing PyRe.search PyFormat.path_splits_error plain_router
       (request "nothing/here")).1
    ≠ Raise (ValueError "list.remove(x): x not in list")
  ∧ (endpoint_routing PyRe.search PyFormat.path_splits_error plain_router
       (request "nothing/here")).1
    ≠ Raise (IndexError "list index out of range").
Proof.
  apply (endpoint_routing_plain_base_url PyRe.search PyFormat.path_splits_error
           plain_router (request "nothing/here") "nothing/here"); reflexivity.
Defined.

(** The micro-service takes [idp1/acs] although the backend registers it
    too. *)
Lemma endpoint_routing_first_matching_micro_service_witness :
  endpoint_routing PyRe.search PyFormat.path_splits_error consent_router (request "idp1/acs")
  = (Return ("handle_consent", "post"),
     set_target_micro_service (Some "consent")
       (set_target_backend (Some "idp1") (request "idp1/acs"))).
Proof.
  refine (endpoint_routing_first_matching_micro_service PyRe.search PyFormat.path_splits_error consent_router
            (request "idp1/acs") "idp1/acs" "idp1" ["acs"]
            [] "consent" _ [] [] "^idp1/acs$" ("handle_consent", "post") []
            eq_refl eq_refl _ eq_refl (Forall_nil_2 _) eq_refl (Forall_nil_2 _)
            eq_refl eq_refl).
  by repeat constructor.
Defined.

Lemma endpoint_routing_backend_handler_witness :
  endpoint_routing PyRe.search PyFormat.path_splits_error plain_router (request "idp1/acs")
  = (Return ("authn_response", "post"),
     set_target_backend (Some "idp1") (request "idp1/acs")).
Proof.
  refine (endpoint_routing_backend_handler PyRe.search PyFormat.path_splits_error plain_router
            (request "idp1/acs") "idp1/acs" "idp1" ["acs"] _
            [] "^idp1/acs$" ("authn_response", "post") []
            eq_refl eq_refl _ (Forall_nil_2 _) eq_refl eq_refl (Forall_nil_2 _)
            eq_refl eq_refl).
  by repeat constructor.
Defined.

(** [idp2] registers a pattern matching [idp1/login]; the path names [idp1],
    whose table has no such pattern, so it is not bound. *)
Lemma endpoint_routing_other_backends_ignored_witness :
  PyRe.search "^idp1/login$" "idp1/login" = true
  ∧ (endpoint_routing PyRe.search PyFormat.path_splits_error two_backend_router (request "idp1/login")).1
    = Raise (not_bound "idp1/login").
Proof.
  split; [reflexivity|].
  apply (endpoint_routing_other_backends_ignored PyRe.search PyFormat.path_splits_error two_backend_router
           (request "idp1/login") "idp1/login" "idp1" ["login"]);
    [reflexivity|reflexivity|by repeat constructor|by repeat constructor|].
  intros entry [= <-]. by repeat constructor.
Defined.

(** The first pattern of [muted] matches [ping] with an empty handler: the
    module is passed over, its second pattern included. *)
Lemma find_registered_false_handler_skips_module_witness :
  _find_registered_endpoint PyRe.search bare_router (request "ping")
    [("muted", muted_entry); ("echo", echo_entry)]
  = _find_registered_endpoint PyRe.search bare_router (request "ping")
      [("echo", echo_entry)].
Proof.
  apply (find_registered_false_handler_skips_module PyRe.search bare_router
           (request "ping") "ping" "muted" muted_entry [("echo", echo_entry)]
           [] "^ping$" EmptyString [("^ping$", "pong")]);
    [reflexivity|reflexivity|constructor|reflexivity|reflexivity].
Defined.

Lemma init_registry_lookup_witness :
  dict_get "idp1" (frontends plain_router) = None
  ∧ dict_get "idp1" (backends plain_router)
    = Some {| instance := idp1; endpoints := backend_register_endpoints idp1 |}
  ∧ dict_get "idp1" (micro_services plain_router) = None.
Proof.
  exact (init_registry_lookup (Some "https://example.com") [saml_sp] [idp1] None
           plain_router "idp1" eq_refl).
Defined.


Lemma frontend_routing_unknown_overwrites_target_witness :
  frontend_routing plain_router
    (set_state {[ STATE_KEY := Some "ghost" ]} (request "idp1/acs"))
  = (Raise (KeyError (Some "ghost")),
     set_target_frontend (Some "ghost")
       (set_state {[ STATE_KEY := Some "ghost" ]} (request "idp1/acs"))).
Proof.
  apply (frontend_routing_unknown_overwrites_target plain_router
           (set_state {[ STATE_KEY := Some "ghost" ]} (request "idp1/acs"))
           (Some "ghost")).
  - apply lookup_singleton_eq.
  - intros f [= <-]. reflexivity.
Defined.

Lemma prefixed_path_routes_like_plain_witness :
  endpoint_routing PyRe.search PyFormat.path_splits_error ctx_router
    (set_path (Some "ctx/metadata") (request "any"))
  = (Return ("metadata", "redirect"),
     set_path (Some "ctx/metadata")
       (set_target_frontend (Some "saml-sp")
          (set_path (Some "metadata") (request "any")))).
Proof.
  refine (proj1 (prefixed_path_routes_like_plain PyRe.search
                   PyFormat.path_splits_error ctx_router plain_router
                   (request "any") "metadata" eq_refl eq_refl eq_refl eq_refl eq_refl
                   _ eq_refl eq_refl eq_refl _ _ _)
            ("metadata", "redirect")
            (set_target_frontend (Some "saml-sp")
               (set_path (Some "metadata") (request "any")))
            eq_refl).
  - discriminate.
  - by repeat constructor.
  - constructor.
  - by repeat constructor.
Defined.

Lemma register_endpoints_anchored_witness :
  Forall (λ entry : string * Saml2.Handler, Saml2.anchored entry.1)
    [("^idp1/acs/post?(.*)$",
      (Saml2.authn_response, "urn:oasis:names:tc:SAML:2.0:bindings:HTTP-POST"));
     ("^idp1/acs/post$",
      (Saml2.authn_response, "urn:oasis:names:tc:SAML:2.0:bindings:HTTP-POST"));
     ("^idp1/metadata$", (Saml2._metadata, EmptyString));
     ("^idp1/disco$",
      (Saml2.disco_response,
       "urn:oasis:names:tc:SAML:profiles:SSO:idp-discovery-protocol"))].
Proof.
  exact (register_endpoints_anchored (λ u, Return u) saml_idp1 _ eq_refl).
Defined.

(** The pairwise member has no name-id format, and a format other than the
    two has no hash type. *)
Lemma name_id_round_trip_witness :
  Saml2.name_format_to_hash_type sample_transient sample_persistent
    "urn:oasis:names:tc:SAML:2.0:nameid-format:transient"
    "urn:oasis:names:tc:SAML:2.0:nameid-format:persistent"
    (Saml2.policy_format
       (Saml2.create_name_id_policy sample_transient sample_persistent
          "urn:oasis:names:tc:SAML:2.0:nameid-format:transient"
          "urn:oasis:names:tc:SAML:2.0:nameid-format:persistent"
          (Some sample_persistent)))
  = Some sample_persistent
  ∧ Saml2.policy_format
      (Saml2.create_name_id_policy sample_transient sample_persistent
         "urn:oasis:names:tc:SAML:2.0:nameid-format:transient"
         "urn:oasis:names:tc:SAML:2.0:nameid-format:persistent"
         (Saml2.name_format_to_hash_type sample_transient sample_persistent
            "urn:oasis:names:tc:SAML:2.0:nameid-format:transient"
            "urn:oasis:names:tc:SAML:2.0:nameid-format:persistent"
            (Some "urn:oasis:names:tc:SAML:1.1:nameid-format:emailAddress")))
    = None.
Proof.
  refine (name_id_round_trip sample_transient sample_persistent
            "urn:oasis:names:tc:SAML:2.0:nameid-format:transient"
            "urn:oasis:names:tc:SAML:2.0:nameid-format:persistent"
            (Some sample_persistent)
            (Some "urn:oasis:names:tc:SAML:1.1:nameid-format:emailAddress") _ _);
    discriminate.
Defined.
